(** * Shallow embedding of the annual/quarterly fact extraction of
    [pages/api/sec-data.js] (the [handler] of the SEC data route).

    The route fetches a company-facts JSON document and turns its
    ["us-gaap"] namespace into a financial statement.  Everything after
    the fetch is a pure computation over the parsed document; that part
    is modelled here.

    Modelling choices, kept close to the JavaScript:
    - a JS object used as a map ([usgaap], [fact.units]) is a [gmap string _];
    - a JS number is a rational [Q] (the arithmetic is exact: rounding of
      IEEE doubles is not modelled);
    - a field of the response is a [jsval]: a number, [null] or a string;
    - an observation's [end] is a date-only ISO string ("YYYY-MM-DD"); it is
      kept as a [date] record ([None] when the key is missing);
    - [new Date(end)] parses a date-only string as UTC midnight, and
      [getFullYear] reads the year in the host's local time zone; the host's
      UTC offset is an explicit argument [tz] of the extraction. *)

From Stdlib Require Import QArith Qround Qabs Lqa ZArith Lia Ascii Sorted.
From stdpp Require Import base gmap strings pretty list.

Open Scope Z_scope.

(** ** Data model *)

Record date := mkDate { date_y : Z; date_m : Z; date_d : Z }.

(** One element of [fact.units[unit]] in the SEC document:
    [{ val, form, fp, end, filed }].  [val = None] stands for a value that is
    [null], [undefined] or [NaN] (the JSON schema has numbers only). *)
Record observation := mkObs {
  obs_val : option Q;
  obs_form : option string;
  obs_fp : option string;
  obs_end : option date;
  obs_filed : option string
}.

(** A fact: [fact.units], a map from unit name to the observations.
    A fact without a [units] key behaves like one with an empty map. *)
Record fact := mkFact { fact_units : gmap string (list observation) }.

(** [factsData.facts]: namespace ("us-gaap", "dei") to tag name to fact. *)
Abbreviation facts_doc := (gmap string (gmap string fact)).

(** The host time zone: the UTC offset (in minutes) in force at the UTC
    midnight of a given date. *)
Abbreviation time_zone := (date -> Z).

(** [new Date(end).getFullYear()]: the date is UTC midnight; a host west of
    UTC (negative offset, less than a day) sees the previous day, so on the
    first of January it reads the previous year. *)
Definition getFullYear (tz : time_zone) (d : date) : Z :=
  if (tz d <? 0) && (date_m d =? 1) && (date_d d =? 1)
  then date_y d - 1 else date_y d.

(** The time value of [new Date(end)], up to a monotone rescaling: for valid
    calendar dates the lexicographic key orders dates as their instants. *)
Definition date_key (d : date) : Z :=
  date_y d * 10000 + date_m d * 100 + date_d d.

Definition obs_key (o : observation) : Z :=
  match obs_end o with Some d => date_key d | None => 0 end.

(** [values.sort((a, b) => new Date(b.end) - new Date(a.end))]:
    [Array.prototype.sort] is stable, so this is a stable sort by
    decreasing end date.  Insertion sort: an element goes after every
    element whose end date is not earlier. *)
Fixpoint insert_desc (x : observation) (l : list observation) : list observation :=
  match l with
  | [] => [x]
  | y :: r => if obs_key x <=? obs_key y then y :: insert_desc x r else x :: y :: r
  end.

Definition sort_desc (l : list observation) : list observation :=
  fold_left (fun acc x => insert_desc x acc) l [].

(** Option chaining [usgaap[fieldName].units[units]]. *)
Definition unit_values (usgaap : gmap string fact) (fieldName units : string)
    : option (list observation) :=
  match usgaap !! fieldName with
  | Some f => fact_units f !! units
  | None => None
  end.

(** The filter of [getRecentAnnualValue]. *)
Definition isAnnualValue (tz : time_zone) (minYear : Z) (v : observation) : bool :=
  let isAnnual :=
    match obs_form v with
    | Some f => bool_decide (f = "10-K") || bool_decide (f = "10-K/A")
    | None => false
    end in
  let isFullYear := bool_decide (obs_fp v = Some "FY") in
  let hasValidValue := match obs_val v with Some _ => true | None => false end in
  let hasEndDate := match obs_end v with Some _ => true | None => false end in
  let year := match obs_end v with Some d => getFullYear tz d | None => 0 end in
  let isRecent := minYear <=? year in
  isAnnual && isFullYear && hasValidValue && hasEndDate && isRecent.

(** The object returned by [getRecentAnnualValue]. *)
Record resolved := mkResolved {
  res_value : Q;
  res_year : Z;
  res_endDate : date;
  res_filingDate : option string
}.

Definition resolve_obs (tz : time_zone) (o : observation) : option resolved :=
  match obs_val o, obs_end o with
  | Some v, Some d => Some (mkResolved v (getFullYear tz d) d (obs_filed o))
  | _, _ => None
  end.

(** The qualifying observations of one alias. *)
Definition annualValues (tz : time_zone) (usgaap : gmap string fact)
    (units : string) (minYear : Z) (fieldName : string) : list observation :=
  match unit_values usgaap fieldName units with
  | Some values => filter (fun v => isAnnualValue tz minYear v = true) values
  | None => []
  end.

(** [getRecentAnnualValue(fieldNames, units, minYear)]: the alias loop with
    its [continue]s and the early [return]. *)
Fixpoint getRecentAnnualValue (tz : time_zone) (usgaap : gmap string fact)
    (fieldNames : list string) (units : string) (minYear : Z) : option resolved :=
  match fieldNames with
  | [] => None
  | fieldName :: rest =>
      match sort_desc (annualValues tz usgaap units minYear fieldName) with
      | [] => getRecentAnnualValue tz usgaap rest units minYear
      | mostRecent :: _ => resolve_obs tz mostRecent
      end
  end.

(** ** Quarterly trend values *)

(** An element of the array returned by [getQuarterlyValues]. *)
Record QuarterlyPoint := mkQuarterlyPoint {
  value : Q;
  period : option string;
  endDate : date;
  year : Z
}.

(** The filter of [getQuarterlyValues]. *)
Definition isQuarterlyValue (v : observation) : bool :=
  let isQuarterly :=
    match obs_form v with
    | Some f => bool_decide (f = "10-Q") || bool_decide (f = "10-K")
    | None => false
    end in
  let isQuarter :=
    match obs_fp v with
    | Some p => bool_decide (p ∈ ["Q1"; "Q2"; "Q3"; "Q4"; "FY"])
    | None => false
    end in
  let hasValidValue := match obs_val v with Some _ => true | None => false end in
  let hasEndDate := match obs_end v with Some _ => true | None => false end in
  isQuarterly && isQuarter && hasValidValue && hasEndDate.

(** [q => ({ value: q.val, period: q.fp, endDate: q.end,
    year: new Date(q.end).getFullYear() })] on a filtered observation. *)
Definition to_point (tz : time_zone) (q : observation) : list QuarterlyPoint :=
  match obs_val q, obs_end q with
  | Some v, Some d => [mkQuarterlyPoint v (obs_fp q) d (getFullYear tz d)]
  | _, _ => []
  end.

Fixpoint getQuarterlyValues (tz : time_zone) (usgaap : gmap string fact)
    (fieldNames : list string) (units : string) (quarters : nat)
    : list QuarterlyPoint :=
  match fieldNames with
  | [] => []
  | fieldName :: rest =>
      let quarterlyValues :=
        match unit_values usgaap fieldName units with
        | Some values => filter (fun v => isQuarterlyValue v = true) values
        | None => []
        end in
      match sort_desc quarterlyValues with
      | [] => getQuarterlyValues tz usgaap rest units quarters
      | sorted => flat_map (to_point tz) (take quarters sorted)
      end
  end.


(** ** JavaScript values of the response *)

Inductive jsval := JNum (q : Q) | JNull | JStr (s : string).

(** Truthiness of a number: [0] (and [NaN], absent here) is falsy. *)
Definition truthy (x : Q) : bool := negb (Qeq_bool x 0).

(** Strict comparison [x < y] of two numbers. *)
Definition qlt (x y : Q) : bool := negb (Qle_bool y x).

(** A number-or-null as a response field. *)
Definition of_opt (x : option Q) : jsval :=
  match x with Some q => JNum q | None => JNull end.

(** [x || 0] on [data?.value]. *)
Definition or0 (r : option resolved) : Q :=
  match r with Some r => res_value r | None => 0 end.

(** [data?.value || null]. *)
Definition or_null (r : option resolved) : option Q :=
  match r with
  | Some r => if truthy (res_value r) then Some (res_value r) else None
  | None => None
  end.

(** [Number.prototype.toFixed(2)]: with [n] the integer for which
    [n / 100 - |x|] is closest to zero, the larger one on a tie, the
    digits of [n] with a decimal point before the last two, and a minus
    sign when [x < 0].  (Above [1e21] JavaScript switches to exponent
    notation; doubles that large are not modelled.) *)
Definition toFixed2_n (x : Q) : Z := Qfloor (Qabs x * 100 + (1 # 2))%Q.

Definition two_digits (n : Z) : string :=
  let s := pretty (Z.to_N n) in
  if n <? 10 then "0" +:+ s else s.

Definition toFixed2 (x : Q) : string :=
  let n := toFixed2_n x in
  (if qlt x 0 then "-" else "")
    +:+ pretty (Z.to_N (n / 100)) +:+ "." +:+ two_digits (n mod 100).

(** [Number(x.toFixed(2))]. *)
Definition round2 (x : Q) : Q :=
  let n := toFixed2_n x in
  Qred (if qlt x 0 then (- n) # 100 else n # 100).

(** ** Ratio helpers *)

(** [!x] on a number-or-null. *)
Definition falsy (x : option Q) : bool :=
  match x with Some q => negb (truthy q) | None => true end.

(** [calculateRatio(numerator, denominator)] with [decimals = 2]. *)
Definition calculateRatio (numerator denominator : option Q) : option Q :=
  match numerator, denominator with
  | Some n, Some d =>
      if falsy numerator || falsy denominator || Qeq_bool d 0 then None
      else
        let ratio := ((n / d) * 100)%Q in
        if qlt 1000 ratio || qlt ratio (-1000)%Q then None
        else Some (round2 ratio)
  | _, _ => None
  end.

(** [calculateSimpleRatio(numerator, denominator)] with [decimals = 2]. *)
Definition calculateSimpleRatio (numerator denominator : option Q) : option Q :=
  match numerator, denominator with
  | Some n, Some d =>
      if falsy numerator || falsy denominator || Qeq_bool d 0 then None
      else Some (round2 (n / d)%Q)
  | _, _ => None
  end.

(** ** The response object [data] *)

Record Metadata := mkMetadata {
  ticker : string; cik : string;
  dataYear : jsval; filingDate : jsval; fiscalYearEnd : jsval
}.

Record OperatingExpenses := mkOperatingExpenses {
  sga : jsval; rd : jsval; total : jsval
}.

Record IncomeStatement := mkIncomeStatement {
  revenues : jsval; costOfRevenues : jsval; grossProfit : jsval;
  operatingExpenses : OperatingExpenses;
  operatingIncome : jsval; netIncome : jsval;
  earningsPerShare : jsval; sharesOutstanding : jsval
}.

Record BalanceSheet := mkBalanceSheet {
  totalAssets : jsval; currentAssets : jsval; cashAndCashEquivalents : jsval;
  totalLiabilities : jsval; currentLiabilities : jsval;
  stockholdersEquity : jsval; workingCapital : jsval
}.

Record CashFlowStatement := mkCashFlowStatement {
  operatingCashFlow : jsval; investingCashFlow : jsval;
  financingCashFlow : jsval; freeCashFlow : jsval
}.

Record KeyMetrics := mkKeyMetrics {
  grossMargin : jsval; operatingMargin : jsval; netMargin : jsval;
  returnOnAssets : jsval; returnOnEquity : jsval;
  currentRatio : jsval; quickRatio : jsval;
  debtToEquity : jsval; debtToAssets : jsval;
  assetTurnover : jsval;
  priceToEarnings : jsval; priceToBook : jsval;
  bookValuePerShare : jsval; revenuePerShare : jsval
}.

Record Trends := mkTrends {
  quarterlyRevenue : list QuarterlyPoint; quarterlyNetIncome : list QuarterlyPoint
}.

Record DataQuality := mkDataQuality { score : Z; issues : list string }.

Record Data := mkData {
  metadata : Metadata;
  incomeStatement : IncomeStatement;
  balanceSheet : BalanceSheet;
  cashFlowStatement : CashFlowStatement;
  keyMetrics : KeyMetrics;
  trends : Trends;
  dataQuality : DataQuality
}.

(** ** Alias tables *)

Definition revenueFields : list string := [
  "RevenueFromContractWithCustomerExcludingAssessedTax"; "Revenues";
  "SalesRevenueNet"; "RevenuesNetOfInterestExpense";
  "RevenueFromContractWithCustomerIncludingAssessedTax";
  "SalesRevenueGoodsNet"; "SalesRevenueServicesNet"; "TotalRevenues";
  "Revenue"; "NetRevenues"; "OperatingRevenues"; "RevenueFromSaleOfGoods";
  "RevenueFromServices"].

Definition costFields : list string := [
  "CostOfGoodsAndServicesSold"; "CostOfRevenue"; "CostOfGoodsSold";
  "CostOfSales"; "CostOfServices"; "CostOfProductRevenue";
  "CostOfServiceRevenue"; "CostOfRevenueExcludingDepreciationAndAmortization"].

Definition sgaFields := ["SellingGeneralAndAdministrativeExpense"; "GeneralAndAdministrativeExpense"].
Definition rdFields := ["ResearchAndDevelopmentExpense"; "ResearchAndDevelopmentExpenseExcludingAcquiredInProcessCost"].
Definition operatingIncomeFields := ["OperatingIncomeLoss"; "IncomeLossFromOperations"].
Definition netIncomeFields := ["NetIncomeLoss"; "ProfitLoss"; "NetIncomeLossAvailableToCommonStockholdersBasic"].
Definition totalAssetsFields := ["Assets"; "TotalAssets"].
Definition totalLiabilitiesFields := ["Liabilities"; "TotalLiabilities"].
Definition equityFields := ["StockholdersEquity"; "StockholdersEquityIncludingPortionAttributableToNoncontrollingInterest"; "TotalEquity"].
Definition currentAssetsFields := ["AssetsCurrent"; "CurrentAssets"].
Definition currentLiabilitiesFields := ["LiabilitiesCurrent"; "CurrentLiabilities"].
Definition cashFields := ["CashAndCashEquivalentsAtCarryingValue";
  "CashCashEquivalentsAndShortTermInvestments"; "Cash"; "CashAndCashEquivalents"].
Definition operatingCashFlowFields := ["NetCashProvidedByUsedInOperatingActivities";
  "NetCashProvidedByOperatingActivities"; "CashFlowsFromOperatingActivities"].
Definition investingCashFlowFields := ["NetCashProvidedByUsedInInvestingActivities";
  "NetCashUsedInInvestingActivities"].
Definition financingCashFlowFields := ["NetCashProvidedByUsedInFinancingActivities";
  "NetCashUsedInFinancingActivities"].
Definition sharesFields := ["WeightedAverageNumberOfSharesOutstandingBasic";
  "CommonStockSharesOutstanding"; "EntityCommonStockSharesOutstanding"].
Definition epsFields := ["EarningsPerShareBasic"; "EarningsPerShareDiluted"; "BasicEarningsPerShare"].

(** ** Data quality: the score object mutated by the six checks *)

(** [if (passed) dataQuality.score += points;
     else dataQuality.issues.push(issue);] *)
Definition dq_check (passed : bool) (points : Z) (issue : string)
    (dq : DataQuality) : DataQuality :=
  if passed then mkDataQuality (score dq + points) (issues dq)
  else mkDataQuality (score dq) (issues dq ++ [issue]).

Definition qpos (x : Q) : bool := qlt 0 x.

(** The six checks, over the locals of the handler: [revenue],
    [grossProfit], [totalAssets], [operatingCashFlow], [operatingIncome]
    and the (unrounded, local) [grossMargin] and [netMargin]. *)
Definition computeDataQuality (revenue : Q) (grossProfit : option Q)
    (totalAssets operatingCashFlow operatingIncome : Q)
    (grossMargin netMargin : option Q) : DataQuality :=
  let dq := mkDataQuality 0 [] in
  let dq := dq_check (qpos revenue) 25 "Missing revenue data" dq in
  let dq := dq_check (match grossProfit with Some g => qpos g | None => false end)
              25 "Missing or invalid gross profit" dq in
  let dq := dq_check (qpos totalAssets) 25 "Missing balance sheet data" dq in
  let dq := dq_check (negb (Qeq_bool operatingCashFlow 0)) 25 "Missing cash flow data" dq in
  let dq := dq_check (match grossProfit with
                      | Some g => truthy g && truthy operatingIncome
                                  && Qle_bool operatingIncome g
                      | None => false end)
              10 "Inconsistent profitability metrics" dq in
  let dq := dq_check (match grossMargin, netMargin with
                      | Some gm, Some nm => truthy gm && truthy nm && Qle_bool nm gm
                      | _, _ => false end)
              10 "Inconsistent margin calculations" dq in
  dq.

(** ** The extraction: the body of [handler] after the fetch *)

(** [dei?.CurrentFiscalYearEndDate?.units?.USD?.[0]?.val || 'Unknown']. *)
Definition fiscalYearEnd_of (dei : gmap string fact) : jsval :=
  match unit_values dei "CurrentFiscalYearEndDate" "USD" with
  | Some (o :: _) =>
      match obs_val o with
      | Some v => if truthy v then JNum v else JStr "Unknown"
      | None => JStr "Unknown"
      end
  | _ => JStr "Unknown"
  end.

(** [revenueData?.year || 'N/A'] *)
Definition dataYear_of (r : option resolved) : jsval :=
  match r with
  | Some r => if res_year r =? 0 then JStr "N/A" else JNum (inject_Z (res_year r))
  | None => JStr "N/A"
  end.

(** [revenueData?.filingDate || 'N/A'] *)
Definition filingDate_of (r : option resolved) : jsval :=
  match r with
  | Some {| res_filingDate := Some s |} => if bool_decide (s = "") then JStr "N/A" else JStr s
  | _ => JStr "N/A"
  end.

(** [a && b ? e : null] on two numbers. *)
Definition both_truthy (a b : Q) (e : Q) : option Q :=
  if truthy a && truthy b then Some e else None.

(** [sharesOutstanding > 0 ? (x / sharesOutstanding).toFixed(2) : null] *)
Definition perShare (x shares : Q) : jsval :=
  if qpos shares then JStr (toFixed2 (x / shares)%Q) else JNull.

(** [facts['us-gaap'] || {}] *)
Definition usgaap_in (facts : facts_doc) : gmap string fact :=
  default ∅ (facts !! "us-gaap").

(** [getRecentAnnualValue(fieldNames)] with the defaults [units = 'USD']
    and [minYear = 2022], as every call site of the handler uses it. *)
Definition resolveAnnual (tz : time_zone) (facts : facts_doc)
    (fieldNames : list string) : option resolved :=
  getRecentAnnualValue tz (usgaap_in facts) fieldNames "USD" 2022.

Definition extract (tz : time_zone) (facts : facts_doc) (ticker cik : string) : Data :=
  let usgaap := usgaap_in facts in
  let dei := default ∅ (facts !! "dei") in
  let get fs := resolveAnnual tz facts fs in
  let revenueData := get revenueFields in
  let revenue := or0 revenueData in
  let costData := get costFields in
  let costOfRevenue := or0 costData in
  let grossProfit :=
    if qpos revenue && qpos costOfRevenue then Some (revenue - costOfRevenue)%Q else None in
  let sgaData := get sgaFields in
  let rdData := get rdFields in
  let operatingIncome := or0 (get operatingIncomeFields) in
  let netIncome := or0 (get netIncomeFields) in
  let totalAssets := or0 (get totalAssetsFields) in
  let totalLiabilities := or0 (get totalLiabilitiesFields) in
  let stockholdersEquity := or0 (get equityFields) in
  let currentAssets := or0 (get currentAssetsFields) in
  let currentLiabilities := or0 (get currentLiabilitiesFields) in
  let cashAndEquivalents := or0 (get cashFields) in
  let operatingCashFlow := or0 (get operatingCashFlowFields) in
  let investingCashFlow := or0 (get investingCashFlowFields) in
  let financingCashFlow := or0 (get financingCashFlowFields) in
  let sharesOutstanding := or0 (get sharesFields) in
  let earningsPerShare := or0 (get epsFields) in
  (* [revenue > 0 && grossProfit ? (grossProfit / revenue) * 100 : null] *)
  let grossMargin :=
    match grossProfit with
    | Some g => if qpos revenue && truthy g then Some ((g / revenue) * 100)%Q else None
    | None => None
    end in
  let netMargin :=
    if qpos revenue && truthy netIncome then Some ((netIncome / revenue) * 100)%Q else None in
  let quarterlyRevenue := getQuarterlyValues tz usgaap revenueFields "USD" 4 in
  let quarterlyNetIncome :=
    getQuarterlyValues tz usgaap ["NetIncomeLoss"; "ProfitLoss"] "USD" 4 in
  let opexTotal := (or0 sgaData + or0 rdData)%Q in
  {| metadata := {|
       ticker := ticker; cik := cik;
       dataYear := dataYear_of revenueData;
       filingDate := filingDate_of revenueData;
       fiscalYearEnd := fiscalYearEnd_of dei |};
     incomeStatement := {|
       revenues := JNum revenue;
       costOfRevenues := JNum costOfRevenue;
       grossProfit := of_opt grossProfit;
       operatingExpenses := {|
         sga := of_opt (or_null sgaData);
         rd := of_opt (or_null rdData);
         total := if truthy opexTotal then JNum opexTotal else JNull |};
       operatingIncome := JNum operatingIncome;
       netIncome := JNum netIncome;
       earningsPerShare := JNum earningsPerShare;
       sharesOutstanding := JNum sharesOutstanding |};
     balanceSheet := {|
       totalAssets := JNum totalAssets;
       currentAssets := JNum currentAssets;
       cashAndCashEquivalents := JNum cashAndEquivalents;
       totalLiabilities := JNum totalLiabilities;
       currentLiabilities := JNum currentLiabilities;
       stockholdersEquity := JNum stockholdersEquity;
       workingCapital := of_opt (both_truthy currentAssets currentLiabilities
                                   (currentAssets - currentLiabilities)%Q) |};
     cashFlowStatement := {|
       operatingCashFlow := JNum operatingCashFlow;
       investingCashFlow := JNum investingCashFlow;
       financingCashFlow := JNum financingCashFlow;
       freeCashFlow := of_opt (both_truthy operatingCashFlow investingCashFlow
                                 (operatingCashFlow + investingCashFlow)%Q) |};
     keyMetrics := {|
       grossMargin := of_opt (calculateRatio grossProfit (Some revenue));
       operatingMargin := of_opt (calculateRatio (Some operatingIncome) (Some revenue));
       netMargin := of_opt (calculateRatio (Some netIncome) (Some revenue));
       returnOnAssets := of_opt (calculateRatio (Some netIncome) (Some totalAssets));
       returnOnEquity := of_opt (calculateRatio (Some netIncome) (Some stockholdersEquity));
       currentRatio := of_opt (calculateSimpleRatio (Some currentAssets) (Some currentLiabilities));
       quickRatio := of_opt (calculateSimpleRatio
                              (Some (currentAssets - currentAssets * (3 # 10))%Q)
                              (Some currentLiabilities));
       debtToEquity := of_opt (calculateSimpleRatio
                                (Some (totalLiabilities - currentLiabilities)%Q)
                                (Some stockholdersEquity));
       debtToAssets := of_opt (calculateRatio
                                (Some (totalLiabilities - currentLiabilities)%Q)
                                (Some totalAssets));
       assetTurnover := of_opt (calculateSimpleRatio (Some revenue) (Some totalAssets));
       priceToEarnings := JNull;
       priceToBook := JNull;
       bookValuePerShare := perShare stockholdersEquity sharesOutstanding;
       revenuePerShare := perShare revenue sharesOutstanding |};
     trends := {| quarterlyRevenue := quarterlyRevenue;
                  quarterlyNetIncome := quarterlyNetIncome |};
     dataQuality := computeDataQuality revenue grossProfit totalAssets
                      operatingCashFlow operatingIncome grossMargin netMargin |}.

(** ** The request handling around the extraction *)

(** [s.padStart(targetLength, c)] with a one-character pad string. *)
Fixpoint repeat_char (n : nat) (c : Ascii.ascii) : string :=
  match n with O => "" | S n => String c (repeat_char n c) end.

Definition padStart (targetLength : nat) (c : Ascii.ascii) (s : string) : string :=
  if Nat.leb targetLength (String.length s) then s
  else repeat_char (targetLength - String.length s) c +:+ s.

(** What a caught exception carries: a fetch that was not [ok] (the message
    is [`... API error: ${status}`]), or a [TypeError] raised by reading a
    property of [undefined] in the parsed JSON. *)
Inductive failure :=
  | HttpError (status : Z)
  | TypeErrorUndefined
  | FetchRejected.

Inductive body (A : Type) :=
  | Message (message : string)
  | Failure (message : string) (error : failure)
  | Payload (payload : A).
Arguments Message {A} message.
Arguments Failure {A} message error.
Arguments Payload {A} payload.

(** [res.status(status).json(body)] *)
Record response (A : Type) := mkResponse { status : Z; res_body : body A }.
Arguments mkResponse {A} status res_body.
Arguments status {A} r.
Arguments res_body {A} r.

(** The outcome of [await fetch(url)] followed by [await response.json()]:
    a rejected promise (network failure, unparsable body), a response that
    is not [ok], or the parsed JSON. *)
Inductive fetched (J : Type) := Rejected | NotOk (status : Z) | Json (json : J).
Arguments Rejected {J}.
Arguments NotOk {J} status.
Arguments Json {J} json.

(** [factsData]: the parsed companyfacts JSON; [None] when it has no
    [facts] key. *)
Abbreviation facts_data := (option facts_doc).

Definition factsUrl (cik : string) : string :=
  "https://data.sec.gov/api/xbrl/companyfacts/CIK" +:+ padStart 10 "0"%char cik +:+ ".json".

(** [!x] on a query parameter given at most once. *)
Definition missing (x : option string) : bool :=
  match x with Some s => bool_decide (s = "") | None => true end.

(** The [handler] of [pages/api/sec-data.js]: method and parameter checks,
    the fetch of the companyfacts document, the extraction, and the
    [catch] turning a failed fetch or a document without [facts] into a
    500 response. *)
Definition secDataHandler (tz : time_zone) (method : string)
    (ticker cik : option string) (fetch : string -> fetched facts_data)
    : response Data :=
  if negb (bool_decide (method = "GET")) then mkResponse 405 (Message "Method not allowed")
  else if missing ticker || missing cik then mkResponse 400 (Message "Ticker and CIK required")
  else
    let t := default "" ticker in
    let c := default "" cik in
    match fetch (factsUrl c) with
    | Rejected => mkResponse 500 (Failure "Failed to fetch SEC data" FetchRejected)
    | NotOk st => mkResponse 500 (Failure "Failed to fetch SEC data" (HttpError st))
    | Json None => mkResponse 500 (Failure "Failed to fetch SEC data" TypeErrorUndefined)
    | Json (Some facts) => mkResponse 200 (Payload (extract tz facts t c))
    end.

(** ** [pages/api/company-info.js] *)

(** The fields of the submissions JSON the handler reads. *)
Record Submissions := mkSubmissions {
  sub_name : option string; sub_sic : option string;
  sub_sicDescription : option string; sub_category : option string;
  sub_fiscalYearEnd : option string; sub_stateOfIncorporation : option string;
  sub_business : option (list (string * string));
  sub_phone : option string;
  sub_accessionNumber : option (list string)
}.

Record CompanyInfo := mkCompanyInfo {
  info_name : option string; info_cik : string; info_sic : option string;
  info_sicDescription : option string; info_category : option string;
  info_fiscalYearEnd : option string; info_stateOfIncorporation : option string;
  info_street1 : option string; info_street2 : option string;
  info_city : option string; info_stateOrCountry : option string;
  info_zipCode : option string; info_phone : option string;
  recentFilings : list string
}.

(** [submissionsData.addresses?.business?.<key>] *)
Definition business_field (s : Submissions) (key : string) : option string :=
  match sub_business s with
  | Some kvs => match list_find (fun kv => kv.1 = key) kvs with
                | Some (_, kv) => Some kv.2 | None => None end
  | None => None
  end.

Definition companyInfo_of (s : Submissions) (cik : string) : CompanyInfo := {|
  info_name := sub_name s; info_cik := cik; info_sic := sub_sic s;
  info_sicDescription := sub_sicDescription s; info_category := sub_category s;
  info_fiscalYearEnd := sub_fiscalYearEnd s;
  info_stateOfIncorporation := sub_stateOfIncorporation s;
  info_street1 := business_field s "street1"; info_street2 := business_field s "street2";
  info_city := business_field s "city";
  info_stateOrCountry := business_field s "stateOrCountry";
  info_zipCode := business_field s "zipCode"; info_phone := sub_phone s;
  (* [submissionsData.filings?.recent?.accessionNumber?.slice(0, 5) || []] *)
  recentFilings := match sub_accessionNumber s with Some l => take 5 l | None => [] end
|}.

Definition submissionsUrl (cik : string) : string :=
  "https://data.sec.gov/submissions/CIK" +:+ padStart 10 "0"%char cik +:+ ".json".

Definition companyInfoHandler (method : string) (cik : option string)
    (fetch : string -> fetched Submissions) : response CompanyInfo :=
  if negb (bool_decide (method = "GET")) then mkResponse 405 (Message "Method not allowed")
  else if missing cik then mkResponse 400 (Message "CIK required")
  else
    let c := default "" cik in
    match fetch (submissionsUrl c) with
    | Rejected => mkResponse 500 (Failure "Failed to fetch company info" FetchRejected)
    | NotOk st => mkResponse 500 (Failure "Failed to fetch company info" (HttpError st))
    | Json s => mkResponse 200 (Payload (companyInfo_of s c))
    end.

(** ** [pages/api/search-companies.js] *)

(** Text is modelled as 8-bit strings: JavaScript's UTF-16 strings agree
    with them on the ASCII text of the SEC ticker file ([length],
    [includes], [toLowerCase]). Non-ASCII text is outside this model:
    there JavaScript's [toLowerCase] may change the length of a string
    (U+0130 becomes two code units), which this [toLowerCase] never does. *)

(** [String.prototype.toLowerCase] on ASCII text. *)
Definition lower_char (c : Ascii.ascii) : Ascii.ascii :=
  let n := Ascii.nat_of_ascii c in
  if Nat.leb 65 n && Nat.leb n 90 then Ascii.ascii_of_nat (n + 32) else c.

Fixpoint toLowerCase (s : string) : string :=
  match s with "" => "" | String c s' => String (lower_char c) (toLowerCase s') end.

Fixpoint starts_with (p s : string) : bool :=
  match p, s with
  | "", _ => true
  | String a p', String b s' => Ascii.eqb a b && starts_with p' s'
  | _, _ => false
  end.

(** [s.includes(p)] *)
Fixpoint includes (s p : string) : bool :=
  starts_with p s || match s with "" => false | String _ s' => includes s' p end.

(** An entry of [company_tickers.json]: [{ cik_str, ticker, title }]. *)
Record Company := mkCompany {
  cik_str : option N; co_ticker : option string; co_title : option string
}.

(** An element of [results]: [{ ticker, name, cik, exchange }]. *)
Record SearchResult := mkSearchResult {
  sr_ticker : option string; sr_name : option string;
  sr_cik : string; sr_exchange : string
}.

(** [company.ticker?.toLowerCase() || ''] and the same on [title]. *)
Definition lowerOrEmpty (x : option string) : string :=
  match x with Some s => toLowerCase s | None => "" end.

Definition matchesSearch (searchTerm : string) (company : Company) : bool :=
  includes (lowerOrEmpty (co_ticker company)) searchTerm
  || includes (lowerOrEmpty (co_title company)) searchTerm.

(** The [forEach] loop: [None] when [company.cik_str.toString()] throws on
    a matching entry without [cik_str]. *)
Fixpoint collectResults (searchTerm : string) (companies : list Company)
    : option (list SearchResult) :=
  match companies with
  | [] => Some []
  | company :: rest =>
      if matchesSearch searchTerm company then
        match cik_str company, collectResults searchTerm rest with
        | Some n, Some results =>
            Some (mkSearchResult (co_ticker company) (co_title company)
                    (padStart 10 "0"%char (pretty n)) "Public" :: results)
        | _, _ => None
        end
      else collectResults searchTerm rest
  end.

(** The result [collectResults] builds for a matching company. *)
Definition result_of (company : Company) (n : N) : SearchResult :=
  mkSearchResult (co_ticker company) (co_title company)
    (padStart 10 "0"%char (pretty n)) "Public".

Section SearchCompanies.

(** [results.sort(comparator)]: the comparator calls [localeCompare], whose
    order depends on the host's collation, and is not a consistent
    comparator (two exact ticker matches each compare below the other), so
    the order is implementation-defined; it may also throw on a result
    without a ticker ([None]).  What the language guarantees is kept: a
    completed sort returns a permutation of its input. *)
Variable sortResults : string -> list SearchResult -> option (list SearchResult).
Hypothesis sortResults_perm : forall searchTerm l l',
  sortResults searchTerm l = Some l' -> Permutation l l'.

(** The [handler] of [pages/api/search-companies.js]; [tickersData] is
    given as [Object.values(tickersData)]. *)
Definition searchHandler (method : string) (query : option string)
    (fetch : string -> fetched (list Company)) : response (list SearchResult) :=
  if negb (bool_decide (method = "GET")) then mkResponse 405 (Message "Method not allowed")
  else if missing query || Nat.ltb (String.length (default "" query)) 2 then
    mkResponse 400 (Message "Search query too short")
  else
    let searchTerm := toLowerCase (default "" query) in
    match fetch "https://www.sec.gov/files/company_tickers.json" with
    | Rejected => mkResponse 500 (Failure "Failed to search companies" FetchRejected)
    | NotOk st => mkResponse 500 (Failure "Failed to search companies" (HttpError st))
    | Json companies =>
        match collectResults searchTerm companies with
        | None => mkResponse 500 (Failure "Failed to search companies" TypeErrorUndefined)
        | Some results =>
            match sortResults searchTerm results with
            | None => mkResponse 500 (Failure "Failed to search companies" TypeErrorUndefined)
            | Some sorted => mkResponse 200 (Payload (take 10 sorted))
            end
        end
    end.

End SearchCompanies.

(** ** [formatNumber] of the converter page *)

(** [formatNumber(num)]; [None] stands for [null], [undefined] or [NaN]. *)
Definition formatNumber (num : option Q) : string :=
  match num with
  | None => "N/A"
  | Some x =>
      let absNum := Qabs x in
      let sign := if qlt x 0 then "-" else "" in
      if Qle_bool (10 ^ 9) absNum then sign +:+ "$" +:+ toFixed2 (absNum / 10 ^ 9) +:+ "B"
      else if Qle_bool (10 ^ 6) absNum then sign +:+ "$" +:+ toFixed2 (absNum / 10 ^ 6) +:+ "M"
      else if Qle_bool (10 ^ 3) absNum then sign +:+ "$" +:+ toFixed2 (absNum / 10 ^ 3) +:+ "K"
      else sign +:+ "$" +:+ toFixed2 absNum
  end%Q.

(** ** The earlier [sec-data.js] handler (second copy in the sources) *)

(** The filter of its [getRecentValue]: a 10-K full-year observation with a
    positive value and an end date, without a year floor. *)
Definition isPositiveAnnual (v : observation) : bool :=
  match obs_form v, obs_val v, obs_end v with
  | Some f, Some x, Some _ =>
      (bool_decide (f = "10-K") || bool_decide (f = "10-K/A"))
      && bool_decide (obs_fp v = Some "FY") && qlt 0 x
  | _, _, _ => false
  end.

(** [getRecentValue(factKey, units)]: [mostRecent.val] or [null]. *)
Definition getRecentValue (usgaap : gmap string fact) (factKey units : string)
    : option Q :=
  match unit_values usgaap factKey units with
  | Some values =>
      match sort_desc (filter (fun v => isPositiveAnnual v = true) values) with
      | mostRecent :: _ => obs_val mostRecent
      | [] => None
      end
  | None => None
  end.

(** [getRecentValue(k1) || getRecentValue(k2) || ... || getRecentValue(kn)]:
    the first truthy value, else the last operand. *)
Fixpoint orChain (xs : list (option Q)) : option Q :=
  match xs with
  | [] => None
  | [x] => x
  | x :: rest =>
      match x with Some q => if truthy q then x else orChain rest | None => orChain rest end
  end.

Definition legacyRevenues (usgaap : gmap string fact) : option Q :=
  orChain ((fun k => getRecentValue usgaap k "USD") <$>
    ["Revenues"; "RevenueFromContractWithCustomerExcludingAssessedTax";
     "SalesRevenueNet"; "RevenuesNetOfInterestExpense"; "TotalRevenues"]).

Definition legacyCostOfRevenues (usgaap : gmap string fact) : option Q :=
  orChain ((fun k => getRecentValue usgaap k "USD") <$>
    ["CostOfGoodsAndServicesSold"; "CostOfRevenue"; "CostOfGoodsSold"; "CostOfSales"]).

(** [revenues && costOfRevenues ? revenues - costOfRevenues : null] *)
Definition legacyGrossProfit (usgaap : gmap string fact) : option Q :=
  match legacyRevenues usgaap, legacyCostOfRevenues usgaap with
  | Some r, Some c => if truthy r && truthy c then Some (r - c)%Q else None
  | _, _ => None
  end.

(** ** Fixtures *)

(** A ["us-gaap"] namespace with every listed tag reported in ["USD"]. *)
Definition usgaap_of (xs : list (string * list observation)) : gmap string fact :=
  list_to_map ((fun '(k, l) => (k, mkFact {[ "USD" := l ]})) <$> xs).

Definition doc_of (xs : list (string * list observation)) : facts_doc :=
  {[ "us-gaap" := usgaap_of xs ]}.

(** A 10-K full-year observation of value [v] ending on [y-m-d]. *)
Definition annual (v : Q) (y m d : Z) : observation :=
  mkObs (Some v) (Some "10-K") (Some "FY") (Some (mkDate y m d)) (Some "2024-02-01").

(** A host running in UTC, and one five hours west of it. *)
Definition tz_utc : time_zone := fun _ => 0.
Definition tz_west : time_zone := fun _ => -300.

Definition doc1 : facts_doc := doc_of [
  ("Revenues", [annual 100 2022 12 31; annual 120 2023 12 31]);
  ("RevenueFromContractWithCustomerExcludingAssessedTax", [annual 90 2022 12 31]);
  ("CostOfRevenue", [annual 40 2023 12 31]);
  ("OperatingIncomeLoss", [annual 30 2023 12 31]);
  ("NetIncomeLoss", [annual 20 2023 12 31]);
  ("Assets", [annual 500 2023 12 31])].

(** Net income reported as exactly [0]. *)
Definition doc_zero_net_income : facts_doc := doc_of [
  ("Revenues", [annual 100 2023 12 31]);
  ("NetIncomeLoss", [annual 0 2023 12 31]);
  ("Assets", [annual 500 2023 12 31]);
  ("StockholdersEquity", [annual 200 2023 12 31])].

(** Cost of revenue reported as exactly [0]. *)
Definition doc_zero_cost : facts_doc := doc_of [
  ("Revenues", [annual 100 2023 12 31]);
  ("CostOfRevenue", [annual 0 2023 12 31])].

(** Operating income reported as exactly [0]. *)
Definition doc_zero_operating_income : facts_doc := doc_of [
  ("Revenues", [annual 100 2023 12 31]);
  ("CostOfRevenue", [annual 40 2023 12 31]);
  ("OperatingIncomeLoss", [annual 0 2023 12 31])].

(** Only a cost of revenue, no revenue. *)
Definition doc_cost_only : facts_doc := doc_of [
  ("CostOfRevenue", [annual 40 2023 12 31])].


(** A statement on which every quality check passes. *)
Definition doc_full : facts_doc := doc_of [
  ("Revenues", [annual 100 2023 12 31]);
  ("CostOfRevenue", [annual 40 2023 12 31]);
  ("OperatingIncomeLoss", [annual 30 2023 12 31]);
  ("NetIncomeLoss", [annual 20 2023 12 31]);
  ("Assets", [annual 500 2023 12 31]);
  ("NetCashProvidedByUsedInOperatingActivities", [annual 50 2023 12 31])].

(** A fiscal year ending on the first of January 2022. *)
Definition doc_jan1 : facts_doc := doc_of [
  ("Revenues", [annual 100 2022 1 1])].

(** Two filings of the fiscal year 2023 (the original and an amendment)
    listed before an older one. *)
Definition doc_tie : facts_doc := doc_of [
  ("Revenues", [annual 100 2023 12 31;
                mkObs (Some 105%Q) (Some "10-K/A") (Some "FY") (Some (mkDate 2023 12 31))
                  (Some "2024-05-01");
                annual 90 2022 12 31])].

(** Equity and revenue in ["USD"], the share count in ["shares"] units,
    as the SEC reports it. *)
Definition doc_share_units : facts_doc :=
  {[ "us-gaap" := <[ "WeightedAverageNumberOfSharesOutstandingBasic" :=
                       mkFact {[ "shares" := [annual 8 2023 12 31] ]} ]>
                  (usgaap_of [("StockholdersEquity", [annual 200 2023 12 31]);
                              ("Revenues", [annual 100 2023 12 31])]) ]}.

(** A submissions document listing six accession numbers. *)
Definition submissions_fixture : Submissions :=
  mkSubmissions (Some "Apple Inc.") None None None None None None None
    (Some ["a1"; "a2"; "a3"; "a4"; "a5"; "a6"]).

(** A sort that keeps the order of the results. *)
Definition sort_identity (searchTerm : string) (l : list SearchResult)
    : option (list SearchResult) := Some l.

(** Three entries of [company_tickers.json]. *)
Definition tickers_fixture : list Company :=
  [mkCompany (Some 320193%N) (Some "AAPL") (Some "Apple Inc.");
   mkCompany (Some 789019%N) (Some "MSFT") (Some "MICROSOFT CORP");
   mkCompany (Some 1418091%N) (Some "PAPL") (Some "Pineapple Holdings")].

(** * Properties of the selector *)

(** ** The stable sort *)

Lemma insert_desc_in (x z : observation) (l : list observation) :
  In z (insert_desc x l) <-> z = x \/ In z l.
Proof.
  induction l as [|y r IH]; simpl; [intuition congruence|].
  destruct (obs_key x <=? obs_key y); simpl; rewrite ?IH; intuition congruence.
Qed.

(** The head of a list carries the largest key. *)
Definition head_is_max (l : list observation) : Prop :=
  match l with
  | [] => True
  | h :: _ => forall y, In y l -> obs_key y <= obs_key h
  end.

Lemma insert_desc_head_max (x : observation) (l : list observation) :
  head_is_max l -> head_is_max (insert_desc x l).
Proof.
  destruct l as [|h t]; simpl.
  - intros _ y [<-|[]]; lia.
  - intros Hmax. destruct (obs_key x <=? obs_key h) eqn:E; simpl.
    + intros y [<-|Hy]; [apply Hmax; now left|].
      apply insert_desc_in in Hy as [->|Hy]; [lia|apply Hmax; now right].
    + apply Z.leb_gt in E.
      intros y [<-|[<-|Hy]]; [lia|lia|].
      specialize (Hmax y (or_intror Hy)); lia.
Qed.

Lemma fold_insert_in (l acc : list observation) (z : observation) :
  In z (fold_left (fun acc x => insert_desc x acc) l acc) <-> In z l \/ In z acc.
Proof.
  revert acc; induction l as [|x l IH]; intros acc; simpl; [tauto|].
  rewrite IH, insert_desc_in; intuition congruence.
Qed.

Lemma fold_insert_head_max (l acc : list observation) :
  head_is_max acc -> head_is_max (fold_left (fun acc x => insert_desc x acc) l acc).
Proof.
  revert acc; induction l as [|x l IH]; intros acc H; simpl; [exact H|].
  apply IH, insert_desc_head_max, H.
Qed.

Lemma sort_desc_in (l : list observation) (z : observation) :
  In z (sort_desc l) <-> In z l.
Proof. unfold sort_desc. rewrite fold_insert_in; simpl; tauto. Qed.

Lemma sort_desc_nil (l : list observation) : sort_desc l = [] -> l = [].
Proof.
  destruct l as [|x l]; [done|]. intros H.
  assert (Hx : In x (sort_desc (x :: l))) by (apply sort_desc_in; now left).
  rewrite H in Hx; destruct Hx.
Qed.

Lemma sort_desc_head (l : list observation) (h : observation) (t : list observation) :
  sort_desc l = h :: t ->
  In h l /\ forall y, In y l -> obs_key y <= obs_key h.
Proof.
  intros E.
  assert (Hm : head_is_max (sort_desc l)) by (apply fold_insert_head_max; exact I).
  rewrite E in Hm. split.
  - apply sort_desc_in. rewrite E. now left.
  - intros y Hy. apply Hm. rewrite <- E. now apply sort_desc_in.
Qed.

(** ** The year filter and the alias walk *)

Lemma getFullYear_le (tz : time_zone) (d : date) : getFullYear tz d <= date_y d.
Proof. unfold getFullYear. destruct (_ && _ && _); lia. Qed.

Lemma annualValues_in (tz : time_zone) (usgaap : gmap string fact) (units : string)
    (minYear : Z) (fieldName : string) (o : observation) :
  In o (annualValues tz usgaap units minYear fieldName) ->
  exists values, unit_values usgaap fieldName units = Some values /\ In o values /\
  isAnnualValue tz minYear o = true.
Proof.
  unfold annualValues. destruct (unit_values _ _ _) as [values|]; [|intros []].
  intros Ho. apply list_elem_of_In, list_elem_of_filter in Ho as [Hq Ho].
  exists values. split; [done|]. split; [now apply list_elem_of_In|exact Hq].
Qed.

Lemma isAnnualValue_spec (tz : time_zone) (minYear : Z) (o : observation) :
  isAnnualValue tz minYear o = true ->
  exists v d, obs_val o = Some v /\ obs_end o = Some d /\
  obs_fp o = Some "FY" /\ minYear <= getFullYear tz d.
Proof.
  unfold isAnnualValue.
  destruct (obs_val o) as [v|], (obs_end o) as [d|];
    rewrite ?andb_false_r; try discriminate.
  intros H. rewrite !andb_true_iff in H.
  destruct H as [[[[_ Hfp] _] _] Hrecent].
  exists v, d. split; [done|]. split; [done|]. split.
  - now apply bool_decide_eq_true in Hfp.
  - now apply Z.leb_le.
Qed.

Lemma getRecentAnnualValue_skip (tz : time_zone) (usgaap : gmap string fact)
    (units : string) (minYear : Z) (pre rest : list string) :
  Forall (fun c => annualValues tz usgaap units minYear c = []) pre ->
  getRecentAnnualValue tz usgaap (pre ++ rest) units minYear
  = getRecentAnnualValue tz usgaap rest units minYear.
Proof.
  induction 1 as [|c pre Hc _ IH]; [done|].
  simpl. rewrite Hc. exact IH.
Qed.

Lemma getRecentAnnualValue_some (tz : time_zone) (usgaap : gmap string fact)
    (units : string) (minYear : Z) (fieldNames : list string) (r : resolved) :
  getRecentAnnualValue tz usgaap fieldNames units minYear = Some r ->
  exists fieldName o, In fieldName fieldNames /\
    In o (annualValues tz usgaap units minYear fieldName) /\
    resolve_obs tz o = Some r.
Proof.
  induction fieldNames as [|f fs IH]; simpl; [discriminate|].
  destruct (sort_desc _) as [|h t] eqn:E.
  - intros H. destruct (IH H) as (fn & o & ? & ? & ?). exists fn, o. tauto.
  - intros H. exists f, h. split; [now left|]. split; [|exact H].
    now apply (sort_desc_head _ h t).
Qed.

(** ** Claims on the selector *)

(** C1 (alias precedence).  When an alias [a] has a qualifying annual
    observation and no alias before it has one, [getRecentAnnualValue]
    returns the most recent qualifying observation of [a]: a later alias [b]
    is never consulted, even when it has a qualifying observation [ob] with
    a more recent end date. *)
Theorem getRecentAnnualValue_alias_precedence (tz : time_zone)
    (usgaap : gmap string fact) (units : string) (minYear : Z)
    (pre mid post : list string) (a b : string) (oa ob : observation)
    (Hpre : Forall (fun c => annualValues tz usgaap units minYear c = []) pre)
    (Ha : In oa (annualValues tz usgaap units minYear a))
    (Hb : In ob (annualValues tz usgaap units minYear b)) :
  exists o v d,
    In o (annualValues tz usgaap units minYear a) /\
    (forall o', In o' (annualValues tz usgaap units minYear a) ->
                obs_key o' <= obs_key o) /\
    obs_val o = Some v /\ obs_end o = Some d /\
    getRecentAnnualValue tz usgaap (pre ++ a :: mid ++ b :: post) units minYear
    = Some (mkResolved v (getFullYear tz d) d (obs_filed o)).
Proof.
  rewrite getRecentAnnualValue_skip by exact Hpre. simpl.
  destruct (sort_desc (annualValues tz usgaap units minYear a)) as [|h t] eqn:E.
  - apply sort_desc_nil in E. rewrite E in Ha. destruct Ha.
  - destruct (sort_desc_head _ _ _ E) as [Hin Hmax].
    destruct (annualValues_in _ _ _ _ _ _ Hin) as (values & _ & _ & Hq).
    destruct (isAnnualValue_spec _ _ _ Hq) as (v & d & Hv & Hd & _ & _).
    exists h, v, d. repeat split; try assumption.
    unfold resolve_obs. now rewrite Hv, Hd.
Qed.

Lemma getRecentAnnualValue_alias_precedence_witness :
  exists o v d,
    In o (annualValues tz_utc (usgaap_in doc1) "USD" 2022
            "RevenueFromContractWithCustomerExcludingAssessedTax") /\
    (forall o', In o' (annualValues tz_utc (usgaap_in doc1) "USD" 2022
                        "RevenueFromContractWithCustomerExcludingAssessedTax") ->
                obs_key o' <= obs_key o) /\
    obs_val o = Some v /\ obs_end o = Some d /\
    getRecentAnnualValue tz_utc (usgaap_in doc1)
      ([] ++ "RevenueFromContractWithCustomerExcludingAssessedTax" :: [] ++ "Revenues" :: [])
      "USD" 2022
    = Some (mkResolved v (getFullYear tz_utc d) d (obs_filed o)).
Proof.
  apply (getRecentAnnualValue_alias_precedence tz_utc (usgaap_in doc1) "USD" 2022
           [] [] [] "RevenueFromContractWithCustomerExcludingAssessedTax" "Revenues"
           (annual 90 2022 12 31) (annual 120 2023 12 31)).
  - constructor.
  - vm_compute. left. reflexivity.
  - vm_compute. right. left. reflexivity.
Defined.

(** C6 (fiscal-year floor).  Whatever the host time zone, the observation
    behind a value returned by [getRecentAnnualValue] has an end date whose
    calendar year is at least [minYear]: an observation ending in an earlier
    year is never selected, whatever its form, period or value. *)
Theorem getRecentAnnualValue_year_floor (tz : time_zone)
    (usgaap : gmap string fact) (fieldNames : list string) (units : string)
    (minYear : Z) (r : resolved)
    (Hr : getRecentAnnualValue tz usgaap fieldNames units minYear = Some r) :
  exists fieldName values o,
    In fieldName fieldNames /\
    unit_values usgaap fieldName units = Some values /\ In o values /\
    obs_end o = Some (res_endDate r) /\ obs_val o = Some (res_value r) /\
    minYear <= date_y (res_endDate r) /\ minYear <= res_year r.
Proof.
  destruct (getRecentAnnualValue_some _ _ _ _ _ _ Hr) as (fn & o & Hfn & Ho & Hres).
  destruct (annualValues_in _ _ _ _ _ _ Ho) as (values & Hvals & Hin & Hq).
  destruct (isAnnualValue_spec _ _ _ Hq) as (v & d & Hv & Hd & _ & Hy).
  unfold resolve_obs in Hres. rewrite Hv, Hd in Hres. injection Hres as <-.
  exists fn, values, o. simpl. pose proof (getFullYear_le tz d).
  repeat split; try assumption; lia.
Qed.

Lemma getRecentAnnualValue_year_floor_witness :
  exists fieldName values o,
    In fieldName revenueFields /\
    unit_values (usgaap_in doc1) fieldName "USD" = Some values /\ In o values /\
    obs_end o = Some (mkDate 2022 12 31) /\ obs_val o = Some 90%Q /\
    2022 <= date_y (mkDate 2022 12 31) /\ 2022 <= 2022.
Proof.
  apply (getRecentAnnualValue_year_floor tz_utc (usgaap_in doc1) revenueFields "USD" 2022
           (mkResolved 90 2022 (mkDate 2022 12 31) (Some "2024-02-01"))).
  vm_compute. reflexivity.
Defined.

(** * Properties of the ratio helpers *)

Lemma qlt_iff (x y : Q) : qlt x y = true <-> (x < y)%Q.
Proof.
  unfold qlt. rewrite negb_true_iff. split; intros H.
  - apply Qnot_le_lt. intros H'. apply Qle_bool_iff in H'. congruence.
  - destruct (Qle_bool y x) eqn:E; [|done].
    apply Qle_bool_iff in E. apply Qlt_not_le in H. contradiction.
Qed.

Lemma qlt_false (x y : Q) : qlt x y = false <-> (y <= x)%Q.
Proof.
  split; intros H.
  - apply Qnot_lt_le. intros H'. apply qlt_iff in H'. congruence.
  - destruct (qlt x y) eqn:E; [|done].
    apply qlt_iff in E. apply Qlt_not_le in E. contradiction.
Qed.

Lemma Qeq_bool_false (x y : Q) : ~ (x == y)%Q -> Qeq_bool x y = false.
Proof.
  intros H. destruct (Qeq_bool x y) eqn:E; [|done].
  apply Qeq_bool_iff in E. contradiction.
Qed.

Lemma falsy_zero (q : Q) : (q == 0)%Q -> falsy (Some q) = true.
Proof. intros H. unfold falsy, truthy. apply Qeq_bool_iff in H. now rewrite H. Qed.

Lemma calculateRatio_zero_num (n : Q) (d : option Q) :
  (n == 0)%Q -> calculateRatio (Some n) d = None.
Proof.
  intros H. unfold calculateRatio. destruct d as [d|]; [|done].
  rewrite (falsy_zero n H). done.
Qed.

Lemma calculateSimpleRatio_zero_num (n : Q) (d : option Q) :
  (n == 0)%Q -> calculateSimpleRatio (Some n) d = None.
Proof.
  intros H. unfold calculateSimpleRatio. destruct d as [d|]; [|done].
  rewrite (falsy_zero n H). done.
Qed.

(** C4, as the claim states it, fails at a zero numerator: the claim gives
    [percentRatio(0, 100) = 0.00], the code gives [null]. *)
Lemma calculateRatio_zero_numerator_cex :
  calculateRatio (Some 0%Q) (Some 100%Q) = None /\
  calculateRatio (Some 0%Q) (Some 100%Q) <> Some (round2 ((0 / 100) * 100)%Q).
Proof. vm_compute. split; [reflexivity|discriminate]. Qed.

(** C4 (amended).  [calculateRatio] returns [null] exactly when an operand
    is [null], the numerator or the denominator is [0], or the percentage
    lies outside [[-1000, 1000]]; otherwise it returns
    [(numerator / denominator) * 100] rounded to two decimals.  In
    particular [calculateRatio(10000, 100)] is [null] and
    [calculateRatio(50, 100)] is [50]. *)
Theorem calculateRatio_contract :
  (forall x : option Q, calculateRatio None x = None /\ calculateRatio x None = None) /\
  (forall n d : Q, calculateRatio (Some n) (Some d) = None <->
     (n == 0 \/ d == 0 \/ 1000 < (n / d) * 100 \/ (n / d) * 100 < -1000)%Q) /\
  (forall n d : Q, ~ (n == 0)%Q -> ~ (d == 0)%Q ->
     (-1000 <= (n / d) * 100 <= 1000)%Q ->
     calculateRatio (Some n) (Some d) = Some (round2 ((n / d) * 100)%Q)) /\
  calculateRatio (Some 10000%Q) (Some 100%Q) = None /\
  calculateRatio (Some 50%Q) (Some 100%Q) = Some 50%Q.
Proof.
  split; [intros [x|]; split; reflexivity|].
  split; [|split; [|vm_compute; split; reflexivity]].
  - intros n d. unfold calculateRatio, falsy, truthy.
    destruct (Qeq_bool n 0) eqn:Hn; simpl.
    { apply Qeq_bool_iff in Hn. tauto. }
    apply Qeq_bool_neq in Hn.
    destruct (Qeq_bool d 0) eqn:Hd; simpl.
    { apply Qeq_bool_iff in Hd. tauto. }
    apply Qeq_bool_neq in Hd.
    destruct (qlt 1000 ((n / d) * 100)) eqn:H1; simpl.
    { apply qlt_iff in H1. tauto. }
    destruct (qlt ((n / d) * 100) (-1000)) eqn:H2; simpl.
    { apply qlt_iff in H2. tauto. }
    apply qlt_false in H1, H2. split; [discriminate|].
    intros [?|[?|[?|?]]]; try contradiction.
    + apply Qlt_not_le in H. contradiction.
    + apply Qlt_not_le in H. contradiction.
  - intros n d Hn Hd [Hlo Hhi]. unfold calculateRatio, falsy, truthy.
    rewrite (Qeq_bool_false _ _ Hn), (Qeq_bool_false _ _ Hd). simpl.
    assert (qlt 1000 ((n / d) * 100) = false) as -> by now apply qlt_false.
    assert (qlt ((n / d) * 100) (-1000) = false) as -> by now apply qlt_false.
    reflexivity.
Qed.

(** C10.  Both ratio helpers treat a zero numerator as missing: they return
    [null], whatever the denominator.  Hence a company whose net income
    is [0] gets a [null] [netMargin], [returnOnAssets] and [returnOnEquity]. *)
Theorem zero_numerator_null_ratios (tz : time_zone) (facts : facts_doc)
    (tk ck : string)
    (Hni : (or0 (resolveAnnual tz facts netIncomeFields) == 0)%Q) :
  (forall (n : Q) (d : option Q), (n == 0)%Q ->
     calculateRatio (Some n) d = None /\ calculateSimpleRatio (Some n) d = None) /\
  netMargin (keyMetrics (extract tz facts tk ck)) = JNull /\
  returnOnAssets (keyMetrics (extract tz facts tk ck)) = JNull /\
  returnOnEquity (keyMetrics (extract tz facts tk ck)) = JNull.
Proof.
  split.
  { intros n d H. split; [apply calculateRatio_zero_num|apply calculateSimpleRatio_zero_num]; exact H. }
  unfold extract; cbn [keyMetrics netMargin returnOnAssets returnOnEquity].
  rewrite !(calculateRatio_zero_num _ _ Hni). repeat split.
Qed.

Lemma zero_numerator_null_ratios_witness :
  (or0 (resolveAnnual tz_utc doc_zero_net_income netIncomeFields) == 0)%Q /\
  netMargin (keyMetrics (extract tz_utc doc_zero_net_income "ZNI" "1")) = JNull /\
  returnOnAssets (keyMetrics (extract tz_utc doc_zero_net_income "ZNI" "1")) = JNull /\
  returnOnEquity (keyMetrics (extract tz_utc doc_zero_net_income "ZNI" "1")) = JNull.
Proof.
  assert (H : (or0 (resolveAnnual tz_utc doc_zero_net_income netIncomeFields) == 0)%Q)
    by (vm_compute; reflexivity).
  split; [exact H|].
  apply (zero_numerator_null_ratios tz_utc doc_zero_net_income "ZNI" "1" H).
Defined.

(** * Properties of the statement builder *)

Lemma qpos_iff (x : Q) : qpos x = true <-> (0 < x)%Q.
Proof. apply qlt_iff. Qed.

Lemma qpos_false (x : Q) : qpos x = false <-> (x <= 0)%Q.
Proof. apply qlt_false. Qed.

(** C3, as the claim states it, fails when both values are present but one
    is not positive: revenue [100] and a cost of revenue reported as [0]
    give a [null] gross profit, where the claim gives [100 - 0]. *)
Lemma grossProfit_zero_cost_cex :
  resolveAnnual tz_utc doc_zero_cost revenueFields
    = Some (mkResolved 100 2023 (mkDate 2023 12 31) (Some "2024-02-01")) /\
  resolveAnnual tz_utc doc_zero_cost costFields
    = Some (mkResolved 0 2023 (mkDate 2023 12 31) (Some "2024-02-01")) /\
  grossProfit (incomeStatement (extract tz_utc doc_zero_cost "ZC" "1")) = JNull /\
  grossProfit (incomeStatement (extract tz_utc doc_zero_cost "ZC" "1"))
    <> JNum (100 - 0)%Q.
Proof. vm_compute. repeat split; discriminate. Qed.

(** C3 (amended).  [grossProfit] is [revenue - costOfRevenue] when both
    resolve to strictly positive values; it is [null] when either one is
    unresolved, and also when either resolved value is zero or negative. *)
Theorem grossProfit_rule (tz : time_zone) (facts : facts_doc) (tk ck : string) :
  (forall rv cv,
     resolveAnnual tz facts revenueFields = Some rv ->
     resolveAnnual tz facts costFields = Some cv ->
     (0 < res_value rv)%Q -> (0 < res_value cv)%Q ->
     grossProfit (incomeStatement (extract tz facts tk ck))
     = JNum (res_value rv - res_value cv)%Q) /\
  (resolveAnnual tz facts revenueFields = None \/
   resolveAnnual tz facts costFields = None ->
     grossProfit (incomeStatement (extract tz facts tk ck)) = JNull) /\
  (forall rv cv,
     resolveAnnual tz facts revenueFields = Some rv ->
     resolveAnnual tz facts costFields = Some cv ->
     (res_value rv <= 0 \/ res_value cv <= 0)%Q ->
     grossProfit (incomeStatement (extract tz facts tk ck)) = JNull).
Proof.
  unfold extract; cbn [incomeStatement grossProfit].
  split; [|split].
  - intros rv cv Hr Hc Hrp Hcp. rewrite Hr, Hc. cbn [or0].
    apply qpos_iff in Hrp, Hcp. now rewrite Hrp, Hcp.
  - intros [H|H]; rewrite H; cbn [or0].
    + reflexivity.
    + now rewrite andb_false_r.
  - intros rv cv Hr Hc [H|H]; rewrite Hr, Hc; cbn [or0];
      apply qpos_false in H; rewrite H; [reflexivity|now rewrite andb_false_r].
Qed.

(** C2, as the claim states it, fails: on a document with no facts at all
    no line item resolves, and revenues, total assets and operating cash flow
    come out as [0], not [null]. *)
Lemma unresolved_fields_zero_cex :
  resolveAnnual tz_utc ∅ revenueFields = None /\
  resolveAnnual tz_utc ∅ totalAssetsFields = None /\
  resolveAnnual tz_utc ∅ operatingCashFlowFields = None /\
  revenues (incomeStatement (extract tz_utc ∅ "E" "1")) = JNum 0 /\
  totalAssets (balanceSheet (extract tz_utc ∅ "E" "1")) = JNum 0 /\
  operatingCashFlow (cashFlowStatement (extract tz_utc ∅ "E" "1")) = JNum 0 /\
  revenues (incomeStatement (extract tz_utc ∅ "E" "1")) <> JNull.
Proof. vm_compute. repeat split; discriminate. Qed.

(** C2 (amended).  An unresolvable line item never stops the extraction
    (the embedding is total: a complete response is built for every
    document); each of the fifteen directly resolved fields (revenues,
    cost of revenue, operating and net income, the six balance-sheet items,
    the three cash flows, the share count and the earnings per share) is [0]
    when its aliases all fail, while [operatingExpenses.sga] and [operatingExpenses.rd] are [null],
    and [grossProfit] is [null] when revenue or cost of revenue is
    unresolved. *)
Theorem unresolved_line_items (tz : time_zone) (facts : facts_doc) (tk ck : string) :
  let d := extract tz facts tk ck in
  (resolveAnnual tz facts revenueFields = None ->
     revenues (incomeStatement d) = JNum 0) /\
  (resolveAnnual tz facts costFields = None ->
     costOfRevenues (incomeStatement d) = JNum 0) /\
  (resolveAnnual tz facts operatingIncomeFields = None ->
     operatingIncome (incomeStatement d) = JNum 0) /\
  (resolveAnnual tz facts netIncomeFields = None ->
     netIncome (incomeStatement d) = JNum 0) /\
  (resolveAnnual tz facts totalAssetsFields = None ->
     totalAssets (balanceSheet d) = JNum 0) /\
  (resolveAnnual tz facts operatingCashFlowFields = None ->
     operatingCashFlow (cashFlowStatement d) = JNum 0) /\
  (resolveAnnual tz facts totalLiabilitiesFields = None ->
     totalLiabilities (balanceSheet d) = JNum 0) /\
  (resolveAnnual tz facts equityFields = None ->
     stockholdersEquity (balanceSheet d) = JNum 0) /\
  (resolveAnnual tz facts currentAssetsFields = None ->
     currentAssets (balanceSheet d) = JNum 0) /\
  (resolveAnnual tz facts currentLiabilitiesFields = None ->
     currentLiabilities (balanceSheet d) = JNum 0) /\
  (resolveAnnual tz facts cashFields = None ->
     cashAndCashEquivalents (balanceSheet d) = JNum 0) /\
  (resolveAnnual tz facts investingCashFlowFields = None ->
     investingCashFlow (cashFlowStatement d) = JNum 0) /\
  (resolveAnnual tz facts financingCashFlowFields = None ->
     financingCashFlow (cashFlowStatement d) = JNum 0) /\
  (resolveAnnual tz facts sharesFields = None ->
     sharesOutstanding (incomeStatement d) = JNum 0) /\
  (resolveAnnual tz facts epsFields = None ->
     earningsPerShare (incomeStatement d) = JNum 0) /\
  (resolveAnnual tz facts sgaFields = None ->
     sga (operatingExpenses (incomeStatement d)) = JNull) /\
  (resolveAnnual tz facts rdFields = None ->
     rd (operatingExpenses (incomeStatement d)) = JNull) /\
  (resolveAnnual tz facts revenueFields = None \/
   resolveAnnual tz facts costFields = None ->
     grossProfit (incomeStatement d) = JNull).
Proof.
  unfold extract; cbn zeta;
    cbn [incomeStatement balanceSheet cashFlowStatement operatingExpenses
         revenues costOfRevenues operatingIncome netIncome totalAssets
         operatingCashFlow sga rd grossProfit totalLiabilities stockholdersEquity
         currentAssets currentLiabilities cashAndCashEquivalents investingCashFlow
         financingCashFlow sharesOutstanding earningsPerShare].
  repeat split; try (intros H; rewrite H; reflexivity).
  intros [H|H]; rewrite H; cbn [or0]; [reflexivity|now rewrite andb_false_r].
Qed.

Lemma getRecentAnnualValue_res_year (tz : time_zone) (usgaap : gmap string fact)
    (fieldNames : list string) (units : string) (minYear : Z) (r : resolved) :
  getRecentAnnualValue tz usgaap fieldNames units minYear = Some r ->
  minYear <= res_year r.
Proof.
  intros Hr.
  destruct (getRecentAnnualValue_some _ _ _ _ _ _ Hr) as (fn & o & _ & Ho & Hres).
  destruct (annualValues_in _ _ _ _ _ _ Ho) as (values & _ & _ & Hq).
  destruct (isAnnualValue_spec _ _ _ Hq) as (v & d & Hv & Hd & _ & Hy).
  unfold resolve_obs in Hres. rewrite Hv, Hd in Hres. injection Hres as <-.
  exact Hy.
Qed.

(** C7, as the claim states it, fails: when revenue is absent but cost of
    revenue resolves (fiscal year 2023), the metadata does not fall back to
    it: [dataYear] and [filingDate] are the placeholder ['N/A']. *)
Lemma metadata_no_fallback_cex :
  resolveAnnual tz_utc doc_cost_only revenueFields = None /\
  resolveAnnual tz_utc doc_cost_only costFields
    = Some (mkResolved 40 2023 (mkDate 2023 12 31) (Some "2024-02-01")) /\
  dataYear (metadata (extract tz_utc doc_cost_only "CO" "1")) = JStr "N/A" /\
  filingDate (metadata (extract tz_utc doc_cost_only "CO" "1")) = JStr "N/A".
Proof. vm_compute. repeat split. Qed.

(** C7 (amended).  The metadata [dataYear] and [filingDate] are taken from
    the revenue resolution only: its fiscal year, and its filing date when
    that is a non-empty string.  When revenue does not resolve, both are the
    placeholder string ['N/A'], whatever other line items resolved. *)
Theorem metadata_from_revenue (tz : time_zone) (facts : facts_doc) (tk ck : string) :
  let md := metadata (extract tz facts tk ck) in
  (forall r, resolveAnnual tz facts revenueFields = Some r ->
     dataYear md = JNum (inject_Z (res_year r)) /\
     (forall s, res_filingDate r = Some s -> s <> "" -> filingDate md = JStr s)) /\
  (resolveAnnual tz facts revenueFields = None ->
     dataYear md = JStr "N/A" /\ filingDate md = JStr "N/A").
Proof.
  unfold extract; cbn zeta; cbn [metadata dataYear filingDate].
  split.
  - intros r Hr. rewrite Hr. split.
    + unfold dataYear_of.
      pose proof (getRecentAnnualValue_res_year _ _ _ _ _ _ Hr).
      destruct (res_year r =? 0) eqn:E; [apply Z.eqb_eq in E; lia|reflexivity].
    + intros s Hs Hne. unfold filingDate_of. destruct r as [v y e f]. simpl in Hs.
      subst f. now rewrite bool_decide_eq_false_2 by exact Hne.
  - intros Hr. rewrite Hr. split; reflexivity.
Qed.

(** * Properties of the quality score *)

(** C5, as the claim states it, fails: with revenue [100], cost of revenue
    [40] and an operating income reported as [0], both [operatingIncome]
    and [grossProfit] are present and [0 <= 60], yet the profitability
    check fails (a zero operating income is falsy), its issue is recorded
    and the score is [50] rather than [60].  And the weights add up to
    [120], not [110]: a statement passing all six checks scores [120]. *)
Lemma quality_score_cex :
  (let d := extract tz_utc doc_zero_operating_income "ZOI" "1" in
   operatingIncome (incomeStatement d) = JNum 0 /\
   grossProfit (incomeStatement d) = JNum 60 /\
   In "Inconsistent profitability metrics" (issues (dataQuality d)) /\
   score (dataQuality d) = 50) /\
  score (dataQuality (extract tz_utc doc_full "FULL" "1")) = 120 /\
  issues (dataQuality (extract tz_utc doc_full "FULL" "1")) = [].
Proof.
  vm_compute. split; [|split; reflexivity].
  split; [reflexivity|]. split; [reflexivity|]. split; [|reflexivity].
  right; right; left; reflexivity.
Qed.

(** C5 (amended).  The score is the plain sum of the six checks, each
    failed check appends its fixed issue string in check order, and the
    score is non-negative.  The checks are: revenue > 0 (25);
    grossProfit non-null and > 0 (25); totalAssets > 0 (25);
    operatingCashFlow <> 0 (25); grossProfit and operatingIncome both
    non-null and nonzero with operatingIncome <= grossProfit (10); the
    handler's unrounded grossMargin and netMargin both non-null and nonzero
    with netMargin <= grossMargin (10).  A null or zero operand fails its
    check. *)
Theorem computeDataQuality_sum (revenue : Q) (gp : option Q)
    (totalAssets operatingCashFlow operatingIncome : Q) (gm nm : option Q) :
  let c1 := qpos revenue in
  let c2 := match gp with Some g => qpos g | None => false end in
  let c3 := qpos totalAssets in
  let c4 := negb (Qeq_bool operatingCashFlow 0) in
  let c5 := match gp with
            | Some g => truthy g && truthy operatingIncome && Qle_bool operatingIncome g
            | None => false end in
  let c6 := match gm, nm with
            | Some a, Some b => truthy a && truthy b && Qle_bool b a
            | _, _ => false end in
  let dq := computeDataQuality revenue gp totalAssets operatingCashFlow operatingIncome gm nm in
  score dq = (if c1 then 25 else 0) + (if c2 then 25 else 0) + (if c3 then 25 else 0)
             + (if c4 then 25 else 0) + (if c5 then 10 else 0) + (if c6 then 10 else 0) /\
  issues dq = (if c1 then [] else ["Missing revenue data"])
              ++ (if c2 then [] else ["Missing or invalid gross profit"])
              ++ (if c3 then [] else ["Missing balance sheet data"])
              ++ (if c4 then [] else ["Missing cash flow data"])
              ++ (if c5 then [] else ["Inconsistent profitability metrics"])
              ++ (if c6 then [] else ["Inconsistent margin calculations"]) /\
  0 <= score dq.
Proof.
  unfold computeDataQuality, dq_check. cbv zeta.
  destruct gp as [g|], gm as [a|], nm as [b|];
    repeat match goal with |- context [if ?c then _ else _] => destruct c end;
    cbn [score issues app]; (split; [lia|split; [reflexivity|lia]]).
Qed.

(** * Shape of the response *)






(** * Determinism *)

(** C9: the output depends on the host time zone, not only on the document
    and the parameters.  The period end ["2022-01-01"] is parsed as UTC
    midnight but its year is read with [getFullYear] in local time: 2022 on
    a host in UTC, 2021 on a host west of UTC, where it falls below the
    [minYear = 2022] floor, so the two runs on the same document report
    different revenues. *)
Lemma extract_time_zone_cex :
  revenues (incomeStatement (extract tz_utc doc_jan1 "J" "1")) = JNum 100 /\
  revenues (incomeStatement (extract tz_west doc_jan1 "J" "1")) = JNum 0 /\
  extract tz_utc doc_jan1 "J" "1" <> extract tz_west doc_jan1 "J" "1".
Proof.
  split; [vm_compute; reflexivity|]. split; [vm_compute; reflexivity|].
  intros H. apply (f_equal (fun d => revenues (incomeStatement d))) in H.
  vm_compute in H. discriminate H.
Qed.

(** * Further properties of the routes *)

(** ** Zero-padding of the CIK *)

Lemma repeat_char_length (n : nat) (c : Ascii.ascii) : String.length (repeat_char n c) = n.
Proof. induction n; simpl; auto. Qed.

Lemma string_app_length (s1 s2 : string) :
  String.length (s1 +:+ s2) = (String.length s1 + String.length s2)%nat.
Proof. induction s1; simpl; auto. Qed.

(** [s.padStart(n, c)] has length [max n (length s)] and is [s] preceded by
    copies of [c] only: a CIK of up to ten characters becomes exactly ten
    characters, a longer one is left as it is (never truncated). *)
Theorem padStart_spec (n : nat) (c : Ascii.ascii) (s : string) :
  String.length (padStart n c s) = Nat.max n (String.length s) /\
  exists k, padStart n c s = repeat_char k c +:+ s /\
            (k = 0%nat <-> (n <= String.length s)%nat).
Proof.
  unfold padStart. destruct (Nat.leb n (String.length s)) eqn:E.
  - apply Nat.leb_le in E. split; [lia|]. exists 0%nat. split; [done|lia].
  - apply Nat.leb_gt in E. split.
    + rewrite string_app_length, repeat_char_length. lia.
    + exists (n - String.length s)%nat. split; [done|lia].
Qed.

Lemma missing_false (x : option string) :
  missing x = false <-> exists s, x = Some s /\ s <> "".
Proof.
  destruct x as [s|]; simpl.
  - rewrite bool_decide_eq_false. split; [eauto|intros (s' & [= <-] & H); exact H].
  - split; [discriminate|intros (s & ? & _); discriminate].
Qed.

(** ** The SEC data route *)

(** The SEC data route answers 200 exactly for a GET request with a
    non-empty [ticker] and [cik] whose companyfacts document (fetched from
    the URL with the zero-padded CIK) has a [facts] object: such a request
    gets 200 with the extraction of that document as payload, and a 200
    answer implies all these conditions.  Every other request gets 405,
    400 or 500. *)
Theorem secDataHandler_ok (tz : time_zone) (method : string)
    (ticker cik : option string) (fetch : string -> fetched facts_data) :
  (forall t c facts,
     method = "GET" -> ticker = Some t -> t <> "" -> cik = Some c -> c <> "" ->
     fetch (factsUrl c) = Json (Some facts) ->
     secDataHandler tz method ticker cik fetch
     = mkResponse 200 (Payload (extract tz facts t c))) /\
  (status (secDataHandler tz method ticker cik fetch) = 200 ->
   exists t c facts,
     method = "GET" /\ ticker = Some t /\ t <> "" /\ cik = Some c /\ c <> "" /\
     fetch (factsUrl c) = Json (Some facts)).
Proof.
  unfold secDataHandler. split.
  - intros t c facts -> -> Ht -> Hc Hf.
    rewrite bool_decide_eq_true_2 by reflexivity.
    unfold missing. rewrite !bool_decide_eq_false_2 by assumption.
    cbn [negb orb default id]. rewrite Hf. reflexivity.
  - destruct (bool_decide (method = "GET")) eqn:Em; simpl; [|discriminate].
    apply bool_decide_eq_true in Em.
    destruct (missing ticker) eqn:Et; simpl; [discriminate|].
    destruct (missing cik) eqn:Ec; simpl; [discriminate|].
    apply missing_false in Et as (t & -> & Ht), Ec as (c & -> & Hc). simpl.
    destruct (fetch (factsUrl c)) as [|st|[facts|]] eqn:Ef; simpl; try discriminate.
    intros _. exists t, c, facts. auto 10.
Qed.

(** ** The company-info route *)

(** The company-info route answers 200 exactly for a GET request with a
    non-empty [cik] whose submissions document (fetched from the URL with
    the zero-padded CIK) was retrieved: such a request gets 200 with the
    company information as payload, and a 200 answer implies these
    conditions.  Its [recentFilings] are the first five accession numbers
    of the document, in order (all of them when there are fewer, [] when
    the document lists none). *)
Theorem companyInfoHandler_ok (method : string) (cik : option string)
    (fetch : string -> fetched Submissions) :
  (forall c s,
     method = "GET" -> cik = Some c -> c <> "" -> fetch (submissionsUrl c) = Json s ->
     companyInfoHandler method cik fetch = mkResponse 200 (Payload (companyInfo_of s c)) /\
     recentFilings (companyInfo_of s c) = take 5 (default [] (sub_accessionNumber s)) /\
     (length (recentFilings (companyInfo_of s c)) <= 5)%nat) /\
  (status (companyInfoHandler method cik fetch) = 200 ->
   exists c s,
     method = "GET" /\ cik = Some c /\ c <> "" /\ fetch (submissionsUrl c) = Json s).
Proof.
  unfold companyInfoHandler. split.
  - intros c s -> -> Hc Hf.
    rewrite bool_decide_eq_true_2 by reflexivity.
    unfold missing. rewrite bool_decide_eq_false_2 by assumption.
    cbn [negb default id]. rewrite Hf. split; [reflexivity|].
    cbn [recentFilings companyInfo_of].
    destruct (sub_accessionNumber s) as [l|]; simpl; [split; [done|]|split; [done|lia]].
    rewrite length_take. lia.
  - destruct (bool_decide (method = "GET")) eqn:Em; simpl; [|discriminate].
    apply bool_decide_eq_true in Em.
    destruct (missing cik) eqn:Ec; simpl; [discriminate|].
    apply missing_false in Ec as (c & -> & Hc). simpl.
    destruct (fetch (submissionsUrl c)) as [|st|s] eqn:Ef; simpl; try discriminate.
    intros _. exists c, s. auto 10.
Qed.

Lemma companyInfoHandler_ok_witness :
  companyInfoHandler "GET" (Some "320193") (fun _ => Json submissions_fixture)
  = mkResponse 200 (Payload (companyInfo_of submissions_fixture "320193")) /\
  recentFilings (companyInfo_of submissions_fixture "320193")
  = take 5 (default [] (sub_accessionNumber submissions_fixture)) /\
  (length (recentFilings (companyInfo_of submissions_fixture "320193")) <= 5)%nat.
Proof.
  apply (proj1 (companyInfoHandler_ok "GET" (Some "320193") (fun _ => Json submissions_fixture))
           "320193" submissions_fixture); reflexivity || discriminate.
Defined.

(** ** The search route *)

Lemma collectResults_Some (searchTerm : string) (companies : list Company)
    (results : list SearchResult) :
  collectResults searchTerm companies = Some results ->
  Forall2 (fun company r => exists n, cik_str company = Some n /\ r = result_of company n)
    (filter (fun company => matchesSearch searchTerm company = true) companies) results.
Proof.
  revert results. induction companies as [|company rest IH]; simpl; intros results H.
  - injection H as <-. constructor.
  - rewrite filter_cons. destruct (matchesSearch searchTerm company) eqn:Em.
    + rewrite decide_True by reflexivity.
      destruct (cik_str company) as [n|] eqn:Ec; [|discriminate].
      destruct (collectResults searchTerm rest) as [rs|]; [|discriminate].
      injection H as <-. constructor; eauto.
    + rewrite decide_False by congruence. auto.
Qed.

Lemma collectResults_None (searchTerm : string) (companies : list Company) (company : Company) :
  company ∈ companies -> matchesSearch searchTerm company = true -> cik_str company = None ->
  collectResults searchTerm companies = None.
Proof.
  induction companies as [|c rest IH]; simpl; intros Hin Hm Hc.
  - apply not_elem_of_nil in Hin. contradiction.
  - apply elem_of_cons in Hin as [->|Hin].
    + rewrite Hm, Hc. reflexivity.
    + rewrite (IH Hin Hm Hc). destruct (matchesSearch searchTerm c), (cik_str c); reflexivity.
Qed.

Lemma Forall2_elem_of_r {A B} (P : A -> B -> Prop) (l : list A) (k : list B) (y : B) :
  Forall2 P l k -> y ∈ k -> exists x, x ∈ l /\ P x y.
Proof.
  induction 1 as [|x y' l k Hxy _ IH]; intros Hy.
  - apply not_elem_of_nil in Hy. contradiction.
  - apply elem_of_cons in Hy as [->|Hy].
    + exists x. split; [left|]; assumption.
    + destruct (IH Hy) as (x' & Hx' & HP). exists x'. split; [right|]; assumption.
Qed.

Lemma Forall2_elem_of_l {A B} (P : A -> B -> Prop) (l : list A) (k : list B) (x : A) :
  Forall2 P l k -> x ∈ l -> exists y, y ∈ k /\ P x y.
Proof.
  induction 1 as [|x' y l k Hxy _ IH]; intros Hx.
  - apply not_elem_of_nil in Hx. contradiction.
  - apply elem_of_cons in Hx as [->|Hx].
    + exists y. split; [left|]; assumption.
    + destruct (IH Hx) as (y' & Hy' & HP). exists y'. split; [right|]; assumption.
Qed.

Lemma elem_of_take_elem_of {A} (x : A) (n : nat) (l : list A) : x ∈ take n l -> x ∈ l.
Proof.
  rewrite elem_of_take. intros (i & Hi & _). eapply list_elem_of_lookup_2. exact Hi.
Qed.

Lemma Permutation_elem_of {A} (l l' : list A) (x : A) : Permutation l l' -> x ∈ l -> x ∈ l'.
Proof. intros Hp Hx. rewrite list_elem_of_In in *. eapply Permutation_in; eassumption. Qed.

Lemma searchHandler_200 (sortResults : string -> list SearchResult -> option (list SearchResult))
    (method : string) (query : option string) (fetch : string -> fetched (list Company))
    (l : list SearchResult) :
  searchHandler sortResults method query fetch = mkResponse 200 (Payload l) ->
  exists q companies results sorted,
    method = "GET" /\ query = Some q /\ (2 <= String.length q)%nat /\
    fetch "https://www.sec.gov/files/company_tickers.json" = Json companies /\
    collectResults (toLowerCase q) companies = Some results /\
    sortResults (toLowerCase q) results = Some sorted /\ l = take 10 sorted.
Proof.
  unfold searchHandler.
  destruct (bool_decide (method = "GET")) eqn:Em; simpl; [|discriminate].
  apply bool_decide_eq_true in Em.
  destruct query as [q|]; simpl; [|discriminate].
  destruct (bool_decide (q = "")); simpl; [discriminate|].
  destruct (Nat.ltb (String.length q) 2) eqn:Eq; simpl; [discriminate|].
  apply Nat.ltb_ge in Eq.
  destruct (fetch "https://www.sec.gov/files/company_tickers.json") as [|st|companies] eqn:Ef;
    try discriminate.
  destruct (collectResults (toLowerCase q) companies) as [results|] eqn:Ec; [|discriminate].
  destruct (sortResults (toLowerCase q) results) as [sorted|] eqn:Es; [|discriminate].
  intros [= <-]. exists q, companies, results, sorted. auto 10.
Qed.

(** A 200 answer of the search route lists [min 10 m] results, where [m]
    is the number of entries of the ticker file whose lower-cased ticker or
    title contains the lower-cased query (of at least two characters); each
    result is built from one of these entries: its ticker and title, its
    [cik_str] zero-padded to ten digits, and the exchange ["Public"].  This
    holds for every sort that returns a permutation of its input. *)
Theorem searchHandler_sound
    (sortResults : string -> list SearchResult -> option (list SearchResult))
    (sortResults_perm : forall searchTerm l l',
       sortResults searchTerm l = Some l' -> Permutation l l')
    (method : string) (query : option string) (fetch : string -> fetched (list Company))
    (l : list SearchResult)
    (Hok : searchHandler sortResults method query fetch = mkResponse 200 (Payload l)) :
  exists q companies,
    query = Some q /\ (2 <= String.length q)%nat /\
    fetch "https://www.sec.gov/files/company_tickers.json" = Json companies /\
    length l = Nat.min 10
      (length (filter (fun company => matchesSearch (toLowerCase q) company = true) companies)) /\
    forall r, r ∈ l -> exists company n,
      company ∈ companies /\ matchesSearch (toLowerCase q) company = true /\
      cik_str company = Some n /\ r = result_of company n.
Proof.
  destruct (searchHandler_200 _ _ _ _ _ Hok)
    as (q & companies & results & sorted & _ & Hq & Hlen & Hf & Hc & Hs & ->).
  pose proof (collectResults_Some _ _ _ Hc) as H2.
  pose proof (sortResults_perm _ _ _ Hs) as Hp.
  exists q, companies. split; [done|]. split; [done|]. split; [done|]. split.
  - rewrite length_take, <- (Permutation_length Hp), <- (Forall2_length _ _ _ H2). lia.
  - intros r Hr. apply elem_of_take_elem_of in Hr.
    apply (Permutation_elem_of sorted results) in Hr; [|symmetry; exact Hp].
    destruct (Forall2_elem_of_r _ _ _ _ H2 Hr) as (company & Hin & n & Hn & ->).
    apply list_elem_of_filter in Hin as [Hm Hin].
    exists company, n. auto.
Qed.

Lemma sort_identity_perm (searchTerm : string) (l l' : list SearchResult) :
  sort_identity searchTerm l = Some l' -> Permutation l l'.
Proof. intros [= <-]. reflexivity. Qed.

Lemma searchHandler_sound_witness :
  exists q companies,
    Some "aPPl" = Some q /\ (2 <= String.length q)%nat /\
    (fun _ : string => Json tickers_fixture) "https://www.sec.gov/files/company_tickers.json"
      = Json companies /\
    length [result_of (mkCompany (Some 320193%N) (Some "AAPL") (Some "Apple Inc.")) 320193;
            result_of (mkCompany (Some 1418091%N) (Some "PAPL") (Some "Pineapple Holdings")) 1418091]
    = Nat.min 10
      (length (filter (fun company => matchesSearch (toLowerCase q) company = true) companies)) /\
    forall r, r ∈ [result_of (mkCompany (Some 320193%N) (Some "AAPL") (Some "Apple Inc.")) 320193;
            result_of (mkCompany (Some 1418091%N) (Some "PAPL") (Some "Pineapple Holdings")) 1418091]
      -> exists company n,
      company ∈ companies /\ matchesSearch (toLowerCase q) company = true /\
      cik_str company = Some n /\ r = result_of company n.
Proof.
  apply (searchHandler_sound sort_identity sort_identity_perm "GET" (Some "aPPl")
           (fun _ => Json tickers_fixture)).
  vm_compute. reflexivity.
Defined.

(** When at most ten entries of the ticker file match the query, a 200
    answer of the search route contains every one of them (the cut to ten
    results loses nothing). *)
Theorem searchHandler_complete
    (sortResults : string -> list SearchResult -> option (list SearchResult))
    (sortResults_perm : forall searchTerm l l',
       sortResults searchTerm l = Some l' -> Permutation l l')
    (method q : string) (fetch : string -> fetched (list Company))
    (l : list SearchResult) (companies : list Company) (company : Company)
    (Hok : searchHandler sortResults method (Some q) fetch = mkResponse 200 (Payload l))
    (Hf : fetch "https://www.sec.gov/files/company_tickers.json" = Json companies)
    (Hfew : (length (filter (fun c => matchesSearch (toLowerCase q) c = true) companies)
             <= 10)%nat)
    (Hin : company ∈ companies)
    (Hm : matchesSearch (toLowerCase q) company = true) :
  exists n, cik_str company = Some n /\ result_of company n ∈ l.
Proof.
  destruct (searchHandler_200 _ _ _ _ _ Hok)
    as (q' & companies' & results & sorted & _ & [= <-] & _ & Hf' & Hc & Hs & ->).
  rewrite Hf in Hf'. injection Hf' as <-.
  pose proof (collectResults_Some _ _ _ Hc) as H2.
  pose proof (sortResults_perm _ _ _ Hs) as Hp.
  assert (Hcf : company ∈ filter (fun c => matchesSearch (toLowerCase q) c = true) companies)
    by (apply list_elem_of_filter; auto).
  destruct (Forall2_elem_of_l _ _ _ _ H2 Hcf) as (r & Hr & n & Hn & ->).
  exists n. split; [exact Hn|].
  rewrite take_ge.
  - eapply Permutation_elem_of; eassumption.
  - rewrite <- (Permutation_length Hp), <- (Forall2_length _ _ _ H2). exact Hfew.
Qed.

Lemma searchHandler_complete_witness :
  exists n, cik_str (mkCompany (Some 1418091%N) (Some "PAPL") (Some "Pineapple Holdings")) = Some n
    /\ result_of (mkCompany (Some 1418091%N) (Some "PAPL") (Some "Pineapple Holdings")) n
       ∈ [result_of (mkCompany (Some 320193%N) (Some "AAPL") (Some "Apple Inc.")) 320193;
          result_of (mkCompany (Some 1418091%N) (Some "PAPL") (Some "Pineapple Holdings")) 1418091].
Proof.
  apply (searchHandler_complete sort_identity sort_identity_perm "GET" "aPPl"
           (fun _ => Json tickers_fixture) _ tickers_fixture).
  - vm_compute. reflexivity.
  - reflexivity.
  - vm_compute. lia.
  - unfold tickers_fixture. right. right. left.
  - vm_compute. reflexivity.
Defined.

(** A matching entry of the ticker file without a [cik_str] makes the
    search route answer 500: [cik_str.toString()] throws inside the loop,
    so no partial result list is returned. *)
Theorem searchHandler_missing_cik
    (sortResults : string -> list SearchResult -> option (list SearchResult))
    (q : string) (fetch : string -> fetched (list Company))
    (companies : list Company) (company : Company)
    (Hlen : (2 <= String.length q)%nat)
    (Hf : fetch "https://www.sec.gov/files/company_tickers.json" = Json companies)
    (Hin : company ∈ companies)
    (Hm : matchesSearch (toLowerCase q) company = true)
    (Hc : cik_str company = None) :
  searchHandler sortResults "GET" (Some q) fetch
  = mkResponse 500 (Failure "Failed to search companies" TypeErrorUndefined).
Proof.
  unfold searchHandler, missing. cbn [default id].
  rewrite bool_decide_eq_true_2 by reflexivity.
  rewrite bool_decide_eq_false_2 by (intros ->; simpl in Hlen; lia).
  rewrite (proj2 (Nat.ltb_ge _ _) Hlen). cbn [negb orb].
  rewrite Hf, (collectResults_None _ _ _ Hin Hm Hc). reflexivity.
Qed.

Lemma searchHandler_missing_cik_witness :
  searchHandler sort_identity "GET" (Some "corp")
    (fun _ => Json (mkCompany None (Some "ABC") (Some "ABC Corp") :: tickers_fixture))
  = mkResponse 500 (Failure "Failed to search companies" TypeErrorUndefined).
Proof.
  apply (searchHandler_missing_cik sort_identity "corp"
           (fun _ => Json (mkCompany None (Some "ABC") (Some "ABC Corp") :: tickers_fixture))
           (mkCompany None (Some "ABC") (Some "ABC Corp") :: tickers_fixture) (mkCompany None (Some "ABC") (Some "ABC Corp"))).
  - simpl. lia.
  - reflexivity.
  - left.
  - vm_compute. reflexivity.
  - reflexivity.
Defined.

(** ** Which observation the annual selector returns *)

(** The head of the sorted list is the first element of the input with the
    largest end date: the sort is stable. *)
Definition first_max (P acc : list observation) : Prop :=
  (acc = [] -> P = []) /\
  forall h t, acc = h :: t ->
    exists before after, P = before ++ h :: after /\
      Forall (fun y => obs_key y < obs_key h) before /\
      forall y, In y P -> obs_key y <= obs_key h.

Lemma first_max_insert (P acc : list observation) (x : observation) :
  first_max P acc -> first_max (P ++ [x]) (insert_desc x acc).
Proof.
  intros [Hnil Hcons]. split.
  - destruct acc as [|h t]; simpl; [discriminate|].
    destruct (obs_key x <=? obs_key h); discriminate.
  - destruct acc as [|h t]; simpl.
    + intros h' t' [= <- <-]. rewrite (Hnil eq_refl). exists [], [].
      split; [done|]. split; [constructor|]. intros y [<-|[]]; lia.
    + destruct (Hcons h t eq_refl) as (before & after & HP & Hb & Hmax).
      destruct (obs_key x <=? obs_key h) eqn:E.
      * apply Z.leb_le in E. intros h' t' [= <- _].
        exists before, (after ++ [x]). split; [rewrite HP; simpl; now rewrite <- app_assoc|].
        split; [exact Hb|]. intros y Hy. apply in_app_or in Hy as [Hy|[<-|[]]]; auto.
      * apply Z.leb_gt in E. intros h' t' [= <- _].
        exists P, []. split; [done|]. split.
        -- apply Forall_forall. intros y Hy. apply list_elem_of_In in Hy.
           specialize (Hmax y Hy). lia.
        -- intros y Hy. apply in_app_or in Hy as [Hy|[<-|[]]]; [|lia].
           specialize (Hmax y Hy). lia.
Qed.

Lemma first_max_fold (l P acc : list observation) :
  first_max P acc ->
  first_max (P ++ l) (fold_left (fun acc x => insert_desc x acc) l acc).
Proof.
  revert P acc. induction l as [|x l IH]; intros P acc H; simpl.
  - now rewrite app_nil_r.
  - replace (P ++ x :: l) with ((P ++ [x]) ++ l) by now rewrite <- app_assoc.
    apply IH, first_max_insert, H.
Qed.

Lemma sort_desc_first_max (l : list observation) (h : observation) (t : list observation) :
  sort_desc l = h :: t ->
  exists before after, l = before ++ h :: after /\
    Forall (fun y => obs_key y < obs_key h) before /\
    forall y, In y l -> obs_key y <= obs_key h.
Proof.
  intros E. assert (H : first_max ([] ++ l) (sort_desc l)).
  { apply first_max_fold. split; [done|]. intros ? ? H; discriminate H. }
  exact (proj2 H h t E).
Qed.

Lemma isAnnualValue_form (tz : time_zone) (minYear : Z) (o : observation) :
  isAnnualValue tz minYear o = true ->
  obs_form o = Some "10-K" \/ obs_form o = Some "10-K/A".
Proof.
  unfold isAnnualValue. destruct (obs_form o) as [f|]; simpl; [|discriminate].
  intros H. rewrite !andb_true_iff in H. destruct H as [[[[Hf _] _] _] _].
  apply orb_true_iff in Hf as [Hf|Hf]; apply bool_decide_eq_true in Hf; subst; auto.
Qed.

(** Within the first alias that has a qualifying observation,
    [getRecentAnnualValue] returns the first one, in the order of the
    document, among those with the latest end date: of an original 10-K and
    a 10-K/A for the same fiscal year, the one listed first wins.  The
    returned observation is a 10-K or 10-K/A full-year filing with a value
    and an end date. *)
Theorem getRecentAnnualValue_first_latest (tz : time_zone) (usgaap : gmap string fact)
    (units : string) (minYear : Z) (pre rest : list string) (a : string)
    (Hpre : Forall (fun c => annualValues tz usgaap units minYear c = []) pre)
    (Ha : annualValues tz usgaap units minYear a <> []) :
  exists before o after v d,
    annualValues tz usgaap units minYear a = before ++ o :: after /\
    Forall (fun y => obs_key y < obs_key o) before /\
    Forall (fun y => obs_key y <= obs_key o) after /\
    (obs_form o = Some "10-K" \/ obs_form o = Some "10-K/A") /\ obs_fp o = Some "FY" /\
    obs_val o = Some v /\ obs_end o = Some d /\
    getRecentAnnualValue tz usgaap (pre ++ a :: rest) units minYear
    = Some (mkResolved v (getFullYear tz d) d (obs_filed o)).
Proof.
  rewrite getRecentAnnualValue_skip by exact Hpre. simpl.
  destruct (sort_desc (annualValues tz usgaap units minYear a)) as [|h t] eqn:E.
  - apply sort_desc_nil in E. contradiction.
  - destruct (sort_desc_first_max _ _ _ E) as (before & after & Hl & Hb & Hmax).
    assert (Hin : In h (annualValues tz usgaap units minYear a))
      by (rewrite Hl; apply in_or_app; right; left; reflexivity).
    destruct (annualValues_in _ _ _ _ _ _ Hin) as (values & _ & _ & Hq).
    destruct (isAnnualValue_spec _ _ _ Hq) as (v & d & Hv & Hd & Hfp & _).
    exists before, h, after, v, d. split; [exact Hl|]. split; [exact Hb|]. split.
    { apply Forall_forall. intros y Hy. apply list_elem_of_In in Hy. apply Hmax. rewrite Hl.
      apply in_or_app. right. right. exact Hy. }
    split; [exact (isAnnualValue_form _ _ _ Hq)|].
    split; [exact Hfp|]. split; [exact Hv|]. split; [exact Hd|].
    unfold resolve_obs. now rewrite Hv, Hd.
Qed.

Lemma getRecentAnnualValue_first_latest_witness :
  exists before o after v d,
    annualValues tz_utc (usgaap_in doc_tie) "USD" 2022 "Revenues" = before ++ o :: after /\
    Forall (fun y => obs_key y < obs_key o) before /\
    Forall (fun y => obs_key y <= obs_key o) after /\
    (obs_form o = Some "10-K" \/ obs_form o = Some "10-K/A") /\ obs_fp o = Some "FY" /\
    obs_val o = Some v /\ obs_end o = Some d /\
    getRecentAnnualValue tz_utc (usgaap_in doc_tie) ([] ++ "Revenues" :: []) "USD" 2022
    = Some (mkResolved v (getFullYear tz_utc d) d (obs_filed o)).
Proof.
  apply (getRecentAnnualValue_first_latest tz_utc (usgaap_in doc_tie) "USD" 2022 [] [] "Revenues").
  - constructor.
  - vm_compute. discriminate.
Defined.


(** ** Quarterly trend values *)








(** ** Rounding of the ratios *)

Lemma toFixed2_n_bounds (x : Q) :
  (inject_Z (toFixed2_n x) - (1 # 2) <= Qabs x * 100 < inject_Z (toFixed2_n x) + (1 # 2))%Q.
Proof.
  unfold toFixed2_n.
  pose proof (Qfloor_le (Qabs x * 100 + (1 # 2))) as H1.
  pose proof (Qlt_floor (Qabs x * 100 + (1 # 2))) as H2.
  rewrite inject_Z_plus in H2. change (inject_Z 1) with 1%Q in H2.
  split; lra.
Qed.

Lemma toFixed2_n_nonneg (x : Q) : 0 <= toFixed2_n x.
Proof.
  unfold toFixed2_n. change 0 with (Qfloor 0).
  apply Qfloor_resp_le. pose proof (Qabs_nonneg x). lra.
Qed.

Lemma round2_eq (x : Q) :
  (round2 x == (if qlt x 0 then - inject_Z (toFixed2_n x) else inject_Z (toFixed2_n x))
               * (1 # 100))%Q.
Proof.
  unfold round2. rewrite Qred_correct.
  destruct (qlt x 0); unfold Qeq; simpl; lia.
Qed.

Lemma round2_close (x : Q) : (Qabs (round2 x - x) <= 1 # 200)%Q.
Proof.
  pose proof (toFixed2_n_bounds x) as [Hlo Hhi].
  rewrite round2_eq, Qabs_Qle_condition.
  destruct (qlt x 0) eqn:Hx.
  - apply qlt_iff in Hx. rewrite Qabs_neg in Hlo, Hhi by lra. split; lra.
  - apply qlt_false in Hx. rewrite Qabs_pos in Hlo, Hhi by lra. split; lra.
Qed.

Lemma round2_bounded (b : Z) (q : Q) :
  (Qabs q <= inject_Z b)%Q -> (Qabs (round2 q) <= inject_Z b)%Q.
Proof.
  intros Hq.
  pose proof (toFixed2_n_bounds q) as [Hlo _].
  pose proof (toFixed2_n_nonneg q) as Hn. rewrite Zle_Qle in Hn.
  change (inject_Z 0) with 0%Q in Hn.
  assert (Hk : (toFixed2_n q <= b * 100)%Z).
  { destruct (Z_le_gt_dec (toFixed2_n q) (b * 100)) as [|Hgt]; [assumption|].
    assert (H1 : (b * 100 + 1 <= toFixed2_n q)%Z) by lia.
    rewrite Zle_Qle, inject_Z_plus, inject_Z_mult in H1.
    change (inject_Z 100) with 100%Q in H1. change (inject_Z 1) with 1%Q in H1.
    lra. }
  rewrite Zle_Qle, inject_Z_mult in Hk. change (inject_Z 100) with 100%Q in Hk.
  rewrite round2_eq, Qabs_Qle_condition. destruct (qlt q 0); split; lra.
Qed.

(** [Number(x.toFixed(2))] is a whole number of hundredths, within half a
    hundredth of [x], of the sign of [x], and symmetric: [-x] rounds to the
    opposite of [x] (halves are rounded away from zero). *)
Theorem round2_spec (x : Q) :
  (exists k : Z, round2 x == inject_Z k * (1 # 100))%Q /\
  (Qabs (round2 x - x) <= 1 # 200)%Q /\
  ((x < 0 -> round2 x <= 0) /\ (0 <= x -> 0 <= round2 x))%Q /\
  (round2 (- x) == - round2 x)%Q.
Proof.
  pose proof (toFixed2_n_bounds x) as [Hlo Hhi].
  pose proof (toFixed2_n_nonneg x) as Hn. rewrite Zle_Qle in Hn.
  change (inject_Z 0) with 0%Q in Hn.
  split; [|split; [|split]].
  - destruct (qlt x 0) eqn:Hx; [exists (- toFixed2_n x)|exists (toFixed2_n x)];
      rewrite round2_eq, Hx; [now rewrite inject_Z_opp|reflexivity].
  - apply round2_close.
  - rewrite !round2_eq. split; intros Hx.
    + assert (qlt x 0 = true) as -> by now apply qlt_iff. lra.
    + assert (qlt x 0 = false) as -> by now apply qlt_false. lra.
  - assert (Hn' : toFixed2_n (- x) = toFixed2_n x).
    { unfold toFixed2_n. apply Qfloor_comp. now rewrite Qabs_opp. }
    rewrite !round2_eq, Hn'.
    destruct (qlt x 0) eqn:Hx, (qlt (- x) 0) eqn:Hx'.
    + apply qlt_iff in Hx, Hx'. lra.
    + lra.
    + lra.
    + apply qlt_false in Hx, Hx'.
      assert (Hx0 : (x == 0)%Q) by lra.
      assert (Hz : toFixed2_n x = 0).
      { unfold toFixed2_n. rewrite (Qfloor_comp _ (1 # 2)).
        - reflexivity.
        - rewrite Hx0. reflexivity. }
      rewrite Hz. reflexivity.
Qed.

(** A number returned by [calculateRatio] comes from a non-zero numerator
    and denominator; it is their percentage rounded to a whole number of
    hundredths, within half a hundredth of the exact percentage, and lies
    in [[-1000, 1000]]. *)
Theorem calculateRatio_result (numerator denominator : option Q) (r : Q)
    (Hr : calculateRatio numerator denominator = Some r) :
  exists n d, numerator = Some n /\ denominator = Some d /\
    ~ (n == 0)%Q /\ ~ (d == 0)%Q /\
    (Qabs (r - (n / d) * 100) <= 1 # 200)%Q /\ (-1000 <= r <= 1000)%Q /\
    (exists k : Z, r == inject_Z k * (1 # 100))%Q.
Proof.
  unfold calculateRatio in Hr.
  destruct numerator as [n|], denominator as [d|]; try discriminate.
  unfold falsy, truthy in Hr.
  destruct (Qeq_bool n 0) eqn:Hn; [discriminate|].
  destruct (Qeq_bool d 0) eqn:Hd; [discriminate|]. simpl in Hr.
  destruct (qlt 1000 ((n / d) * 100)) eqn:H1; [discriminate|].
  destruct (qlt ((n / d) * 100) (-1000)) eqn:H2; [discriminate|].
  injection Hr as <-. apply qlt_false in H1, H2.
  exists n, d. split; [done|]. split; [done|].
  split; [now apply Qeq_bool_neq|]. split; [now apply Qeq_bool_neq|].
  split; [apply round2_close|]. split.
  - assert (Hb : (Qabs ((n / d) * 100) <= inject_Z 1000)%Q)
      by (apply Qabs_Qle_condition; change (inject_Z 1000) with 1000%Q; split; lra).
    apply round2_bounded, Qabs_Qle_condition in Hb.
    change (inject_Z 1000) with 1000%Q in Hb. exact Hb.
  - destruct (qlt ((n / d) * 100) 0) eqn:Hx;
      [exists (- toFixed2_n ((n / d) * 100))|exists (toFixed2_n ((n / d) * 100))];
      rewrite round2_eq, Hx; [now rewrite inject_Z_opp|reflexivity].
Qed.

Lemma calculateRatio_result_witness :
  exists n d, Some (2 # 3)%Q = Some n /\ Some 1%Q = Some d /\
    ~ (n == 0)%Q /\ ~ (d == 0)%Q /\
    (Qabs ((6667 # 100) - (n / d) * 100) <= 1 # 200)%Q /\ (-1000 <= 6667 # 100 <= 1000)%Q /\
    (exists k : Z, (6667 # 100) == inject_Z k * (1 # 100))%Q.
Proof.
  apply (calculateRatio_result (Some (2 # 3)%Q) (Some 1%Q)). vm_compute. reflexivity.
Defined.

(** [calculateSimpleRatio] returns [null] exactly when an operand is
    missing or zero; otherwise the quotient rounded to a whole number of
    hundredths (within half a hundredth), with no bound on its size (unlike
    [calculateRatio]). *)
Theorem calculateSimpleRatio_spec (numerator denominator : option Q) :
  (calculateSimpleRatio numerator denominator = None <->
   match numerator, denominator with
   | Some n, Some d => (n == 0 \/ d == 0)%Q
   | _, _ => True
   end) /\
  (forall n d r, numerator = Some n -> denominator = Some d ->
     calculateSimpleRatio numerator denominator = Some r ->
     r = round2 (n / d) /\ (Qabs (r - n / d) <= 1 # 200)%Q) /\
  calculateSimpleRatio (Some 5000%Q) (Some 1%Q) = Some 5000%Q.
Proof.
  split; [|split; [|vm_compute; reflexivity]].
  - destruct numerator as [n|], denominator as [d|]; simpl; try tauto.
    unfold falsy, truthy.
    destruct (Qeq_bool n 0) eqn:Hn; simpl.
    { apply Qeq_bool_iff in Hn. tauto. }
    destruct (Qeq_bool d 0) eqn:Hd; simpl.
    { apply Qeq_bool_iff in Hd. tauto. }
    apply Qeq_bool_neq in Hn, Hd. split; [discriminate|tauto].
  - intros n d r -> -> Hr. unfold calculateSimpleRatio in Hr.
    destruct (falsy (Some n) || falsy (Some d) || Qeq_bool d 0); [discriminate|].
    injection Hr as <-. split; [reflexivity|apply round2_close].
Qed.

(** ** The data-quality score *)

(** The quality score lies between [0] and [120] (the handler logs it out
    of [110]); it reaches [120] exactly when no issue is reported, and the
    issues are at most six, all different. *)
Theorem computeDataQuality_range (revenue : Q) (gp : option Q)
    (totalAssets operatingCashFlow operatingIncome : Q) (gm nm : option Q) :
  let dq := computeDataQuality revenue gp totalAssets operatingCashFlow operatingIncome gm nm in
  0 <= score dq <= 120 /\ (score dq = 120 <-> issues dq = []) /\
  (length (issues dq) <= 6)%nat /\ NoDup (issues dq).
Proof.
  unfold computeDataQuality, dq_check. cbv zeta.
  destruct gp as [g|], gm as [a|], nm as [b|];
    repeat match goal with |- context [if ?c then _ else _] => destruct c end;
    cbn [score issues app length];
    (split; [lia|split; [split; intros H; (lia || discriminate || reflexivity)|
                         split; [lia|apply (bool_decide_unpack _); vm_compute; reflexivity]]]).
Qed.

(** Without a positive revenue (none resolved, or a value [<= 0]), the
    response's [grossProfit] and [keyMetrics.grossMargin] are [null], and
    so are the gross and net margins the quality check computes (both
    guarded by [revenue > 0]); so the revenue, gross-profit, profitability
    and margin checks all fail: the score is at most [50], [25] less for
    each of the balance-sheet and cash-flow issues, which are the only
    other issues listed.  ([keyMetrics.netMargin] goes through
    [calculateRatio], which only rejects a zero revenue: it is not covered
    here.) *)
Theorem dataQuality_without_revenue (tz : time_zone) (facts : facts_doc) (tk ck : string)
    (Hrev : (or0 (resolveAnnual tz facts revenueFields) <= 0)%Q) :
  let d := extract tz facts tk ck in
  grossProfit (incomeStatement d) = JNull /\
  grossMargin (keyMetrics d) = JNull /\
  exists mid,
    issues (dataQuality d) = ["Missing revenue data"; "Missing or invalid gross profit"] ++ mid ++
                ["Inconsistent profitability metrics"; "Inconsistent margin calculations"] /\
    mid ⊆ ["Missing balance sheet data"; "Missing cash flow data"] /\
    score (dataQuality d) + 25 * Z.of_nat (length mid) = 50.
Proof.
  apply qpos_false in Hrev. cbv zeta.
  split; [unfold extract; cbn [incomeStatement grossProfit]; now rewrite Hrev|].
  split; [unfold extract; cbn [keyMetrics grossMargin]; now rewrite Hrev|].
  unfold extract. cbn [dataQuality]. rewrite Hrev. cbn [andb].
  unfold computeDataQuality, dq_check. rewrite Hrev. cbv zeta.
  repeat match goal with |- context [if ?c then _ else _] => destruct c end;
    cbn [score issues app];
    first [ exists []; split; [reflexivity|]
          | exists ["Missing cash flow data"]; split; [reflexivity|]
          | exists ["Missing balance sheet data"]; split; [reflexivity|]
          | exists ["Missing balance sheet data"; "Missing cash flow data"];
            split; [reflexivity|] ];
    (split; [set_solver|]); simpl; lia.
Qed.

Lemma dataQuality_without_revenue_witness :
  grossProfit (incomeStatement (extract tz_utc doc_cost_only "T" "1")) = JNull /\
  grossMargin (keyMetrics (extract tz_utc doc_cost_only "T" "1")) = JNull /\
  exists mid,
    issues (dataQuality (extract tz_utc doc_cost_only "T" "1")) =
      ["Missing revenue data"; "Missing or invalid gross profit"] ++ mid ++
      ["Inconsistent profitability metrics"; "Inconsistent margin calculations"] /\
    mid ⊆ ["Missing balance sheet data"; "Missing cash flow data"] /\
    score (dataQuality (extract tz_utc doc_cost_only "T" "1")) + 25 * Z.of_nat (length mid) = 50.
Proof.
  apply (dataQuality_without_revenue tz_utc doc_cost_only "T" "1").
  vm_compute. discriminate.
Defined.

(** ** Per-share metrics *)

(** The share count is looked up like every other line item, in ["USD"]
    units: when no share-count tag has a qualifying observation in ["USD"]
    (the SEC reports share counts in ["shares"] units), [sharesOutstanding]
    is [0] and both per-share metrics are [null], whatever the equity and
    revenue. *)
Theorem per_share_needs_usd_shares (tz : time_zone) (facts : facts_doc) (tk ck : string)
    (Hsh : Forall (fun c => annualValues tz (usgaap_in facts) "USD" 2022 c = []) sharesFields) :
  let d := extract tz facts tk ck in
  sharesOutstanding (incomeStatement d) = JNum 0 /\
  bookValuePerShare (keyMetrics d) = JNull /\ revenuePerShare (keyMetrics d) = JNull.
Proof.
  assert (Hnone : resolveAnnual tz facts sharesFields = None).
  { unfold resolveAnnual. rewrite <- (app_nil_r sharesFields).
    rewrite getRecentAnnualValue_skip by exact Hsh. reflexivity. }
  unfold extract. cbn [incomeStatement sharesOutstanding keyMetrics bookValuePerShare
                       revenuePerShare].
  rewrite Hnone. cbn [or0]. split; [reflexivity|]. split; reflexivity.
Qed.

Lemma per_share_needs_usd_shares_witness :
  sharesOutstanding (incomeStatement (extract tz_utc doc_share_units "T" "1")) = JNum 0 /\
  bookValuePerShare (keyMetrics (extract tz_utc doc_share_units "T" "1")) = JNull /\
  revenuePerShare (keyMetrics (extract tz_utc doc_share_units "T" "1")) = JNull.
Proof.
  apply (per_share_needs_usd_shares tz_utc doc_share_units "T" "1").
  vm_compute. repeat constructor.
Defined.

(** ** [formatNumber] *)

Lemma Qfloor_eq (y : Q) (k : Z) : (inject_Z k <= y < inject_Z k + 1)%Q -> Qfloor y = k.
Proof.
  intros [H1 H2]. pose proof (Qfloor_le y) as H3. pose proof (Qlt_floor y) as H4.
  rewrite inject_Z_plus in H4. change (inject_Z 1) with 1%Q in H4.
  assert (Hle : (k <= Qfloor y)%Z).
  { destruct (Z_le_gt_dec k (Qfloor y)) as [|Hgt]; [assumption|].
    assert (H5 : (Qfloor y + 1 <= k)%Z) by lia.
    rewrite Zle_Qle, inject_Z_plus in H5. change (inject_Z 1) with 1%Q in H5. lra. }
  assert (Hge : (Qfloor y <= k)%Z).
  { destruct (Z_le_gt_dec (Qfloor y) k) as [|Hgt]; [assumption|].
    assert (H5 : (k + 1 <= Qfloor y)%Z) by lia.
    rewrite Zle_Qle, inject_Z_plus in H5. change (inject_Z 1) with 1%Q in H5. lra. }
  lia.
Qed.

Lemma toFixed2_nonneg_eq (y : Q) (k : Z) :
  (0 <= y)%Q -> (inject_Z k <= y * 100 + (1 # 2) < inject_Z k + 1)%Q ->
  toFixed2 y = pretty (Z.to_N (k / 100)) +:+ "." +:+ two_digits (k mod 100).
Proof.
  intros Hy Hk. unfold toFixed2, toFixed2_n.
  assert (qlt y 0 = false) as -> by now apply qlt_false.
  rewrite (Qfloor_comp _ (y * 100 + (1 # 2))) by (now rewrite Qabs_pos).
  rewrite (Qfloor_eq _ k Hk). reflexivity.
Qed.

(** [formatNumber] shows an amount below half a cent as ["$0.00"], with a
    minus sign when it is negative (["-$0.00"]); an amount just below a
    million (from [999,996]) or a billion (from [999,996,000]) is shown as
    ["$1000.00K"] or ["$1000.00M"] rather than in the next unit; [null]
    is shown as ["N/A"]. *)
Theorem formatNumber_edges :
  formatNumber None = "N/A" /\
  (forall x : Q, (Qabs x < 1 # 200)%Q ->
     formatNumber (Some x) = (if qlt x 0 then "-" else "") +:+ "$0.00") /\
  (forall x : Q, (999996 <= Qabs x < 1000000)%Q ->
     formatNumber (Some x) = (if qlt x 0 then "-" else "") +:+ "$1000.00K") /\
  (forall x : Q, (999996000 <= Qabs x < 1000000000)%Q ->
     formatNumber (Some x) = (if qlt x 0 then "-" else "") +:+ "$1000.00M").
Proof.
  split; [reflexivity|]. split; [|split].
  - intros x Hx. pose proof (Qabs_nonneg x). unfold formatNumber.
    change (10 ^ 9)%Q with 1000000000%Q; change (10 ^ 6)%Q with 1000000%Q;
    change (10 ^ 3)%Q with 1000%Q.
    assert (Qle_bool 1000000000 (Qabs x) = false) as ->
      by (apply not_true_iff_false; rewrite Qle_bool_iff; lra).
    assert (Qle_bool 1000000 (Qabs x) = false) as ->
      by (apply not_true_iff_false; rewrite Qle_bool_iff; lra).
    assert (Qle_bool 1000 (Qabs x) = false) as ->
      by (apply not_true_iff_false; rewrite Qle_bool_iff; lra).
    rewrite (toFixed2_nonneg_eq _ 0).
    + reflexivity.
    + assumption.
    + change (inject_Z 0) with 0%Q. lra.
  - intros x Hx. pose proof (Qabs_nonneg x). unfold formatNumber.
    change (10 ^ 9)%Q with 1000000000%Q; change (10 ^ 6)%Q with 1000000%Q;
    change (10 ^ 3)%Q with 1000%Q.
    assert (Qle_bool 1000000000 (Qabs x) = false) as ->
      by (apply not_true_iff_false; rewrite Qle_bool_iff; lra).
    assert (Qle_bool 1000000 (Qabs x) = false) as ->
      by (apply not_true_iff_false; rewrite Qle_bool_iff; lra).
    assert (Qle_bool 1000 (Qabs x) = true) as ->
      by (rewrite Qle_bool_iff; lra).
    rewrite (toFixed2_nonneg_eq _ 100000).
    + reflexivity.
    + change (Qabs x / 1000)%Q with (Qabs x * (1 # 1000))%Q. lra.
    + change (inject_Z 100000) with 100000%Q.
      change (Qabs x / 1000)%Q with (Qabs x * (1 # 1000))%Q.
      lra.
  - intros x Hx. pose proof (Qabs_nonneg x). unfold formatNumber.
    change (10 ^ 9)%Q with 1000000000%Q; change (10 ^ 6)%Q with 1000000%Q;
    change (10 ^ 3)%Q with 1000%Q.
    assert (Qle_bool 1000000000 (Qabs x) = false) as ->
      by (apply not_true_iff_false; rewrite Qle_bool_iff; lra).
    assert (Qle_bool 1000000 (Qabs x) = true) as ->
      by (rewrite Qle_bool_iff; lra).
    rewrite (toFixed2_nonneg_eq _ 100000).
    + reflexivity.
    + change (Qabs x / 1000000)%Q with (Qabs x * (1 # 1000000))%Q. lra.
    + change (inject_Z 100000) with 100000%Q.
      change (Qabs x / 1000000)%Q with (Qabs x * (1 # 1000000))%Q.
      lra.
Qed.

(** ** The earlier handler *)

Lemma getRecentValue_spec (usgaap : gmap string fact) (factKey units : string) (x : Q) :
  getRecentValue usgaap factKey units = Some x ->
  (0 < x)%Q /\
  exists values o,
    unit_values usgaap factKey units = Some values /\ In o values /\
    (obs_form o = Some "10-K" \/ obs_form o = Some "10-K/A") /\
    obs_fp o = Some "FY" /\ obs_val o = Some x /\ obs_end o <> None /\
    forall o', In o' values -> isPositiveAnnual o' = true -> (obs_key o' <= obs_key o)%Z.
Proof.
  unfold getRecentValue. destruct (unit_values usgaap factKey units) as [values|]; [|discriminate].
  destruct (sort_desc _) as [|h t] eqn:E; [discriminate|]. intros Hx.
  destruct (sort_desc_head _ _ _ E) as [Hin Hmax].
  apply list_elem_of_In, list_elem_of_filter in Hin as [Hq Hin].
  assert (Hlater : forall o', In o' values -> isPositiveAnnual o' = true ->
                              (obs_key o' <= obs_key h)%Z).
  { intros o' Ho' Hp. apply Hmax, list_elem_of_In, list_elem_of_filter.
    split; [exact Hp|now apply list_elem_of_In]. }
  apply list_elem_of_In in Hin.
  unfold isPositiveAnnual in Hq. rewrite Hx in Hq.
  destruct (obs_form h) as [f|] eqn:Ef, (obs_end h) eqn:Ee; try discriminate.
  rewrite !andb_true_iff, orb_true_iff, !bool_decide_eq_true in Hq.
  destruct Hq as [[Hf Hfp] Hq]. split; [now apply qlt_iff|].
  exists values, h. repeat split; auto; [|congruence].
  destruct Hf as [->| ->]; auto.
Qed.

Lemma getRecentValue_pos (usgaap : gmap string fact) (factKey units : string) (x : Q) :
  getRecentValue usgaap factKey units = Some x -> (0 < x)%Q.
Proof. intros Hx. exact (proj1 (getRecentValue_spec _ _ _ _ Hx)). Qed.

Lemma orChain_pos (xs : list (option Q)) (x : Q) :
  Forall (fun o => forall y, o = Some y -> (0 < y)%Q) xs ->
  orChain xs = Some x -> (0 < x)%Q /\ Some x ∈ xs.
Proof.
  induction xs as [|o [|o' rest] IH]; intros Hall Hx; [discriminate| |].
  - simpl in Hx. subst o. apply Forall_cons_iff in Hall as [Ho _].
    split; [now apply Ho|left].
  - apply Forall_cons_iff in Hall as [Ho Hrest].
    change (orChain (o :: o' :: rest)) with
      (match o with Some q => if truthy q then o else orChain (o' :: rest)
                  | None => orChain (o' :: rest) end) in Hx.
    destruct o as [q|]; [destruct (truthy q)|].
    + injection Hx as ->. split; [now apply Ho|left].
    + destruct (IH Hrest Hx) as [Hp Hin]. split; [exact Hp|now right].
    + destruct (IH Hrest Hx) as [Hp Hin]. split; [exact Hp|now right].
Qed.

Lemma legacy_chain_pos (usgaap : gmap string fact) (keys : list string) (x : Q) :
  orChain ((fun k => getRecentValue usgaap k "USD") <$> keys) = Some x ->
  (0 < x)%Q /\ exists k, k ∈ keys /\ getRecentValue usgaap k "USD" = Some x.
Proof.
  intros Hx. apply orChain_pos in Hx as [Hp Hin].
  - split; [exact Hp|]. apply list_elem_of_fmap in Hin as (k & Hk & Hin). eauto.
  - apply Forall_fmap, Forall_forall. intros k _ y. apply getRecentValue_pos.
Qed.

(** In the earlier [sec-data.js], every line item is strictly positive (a
    reported loss or a zero is read as missing) and is the value of an
    observation of the tag in the requested units that was filed on a
    10-K or 10-K/A for a full fiscal year ([fp = "FY"]), has an end date,
    and ends no earlier than any other such positive observation; revenue
    and cost of revenue are the value of one of their tags; and the gross
    profit is [revenues - costOfRevenues] exactly when both resolve,
    [null] otherwise. *)
Theorem legacy_values (usgaap : gmap string fact) :
  (forall k units x, getRecentValue usgaap k units = Some x ->
     (0 < x)%Q /\
     exists values o,
       unit_values usgaap k units = Some values /\ In o values /\
       (obs_form o = Some "10-K" \/ obs_form o = Some "10-K/A") /\
       obs_fp o = Some "FY" /\ obs_val o = Some x /\ obs_end o <> None /\
       forall o', In o' values -> isPositiveAnnual o' = true -> (obs_key o' <= obs_key o)%Z) /\
  (forall r, legacyRevenues usgaap = Some r -> (0 < r)%Q /\
     exists k, k ∈ ["Revenues"; "RevenueFromContractWithCustomerExcludingAssessedTax";
                    "SalesRevenueNet"; "RevenuesNetOfInterestExpense"; "TotalRevenues"] /\
       getRecentValue usgaap k "USD" = Some r) /\
  (forall c, legacyCostOfRevenues usgaap = Some c -> (0 < c)%Q /\
     exists k, k ∈ ["CostOfGoodsAndServicesSold"; "CostOfRevenue"; "CostOfGoodsSold";
                    "CostOfSales"] /\
       getRecentValue usgaap k "USD" = Some c) /\
  (forall r c, legacyRevenues usgaap = Some r -> legacyCostOfRevenues usgaap = Some c ->
     legacyGrossProfit usgaap = Some (r - c)%Q) /\
  (legacyGrossProfit usgaap = None <->
   legacyRevenues usgaap = None \/ legacyCostOfRevenues usgaap = None).
Proof.
  split; [exact (getRecentValue_spec usgaap)|].
  split; [intros r; apply legacy_chain_pos|].
  split; [intros c; apply legacy_chain_pos|].
  assert (Htr : forall x, (0 < x)%Q -> truthy x = true).
  { intros x Hx. unfold truthy. rewrite Qeq_bool_false; [reflexivity|].
    intros He. rewrite He in Hx. discriminate. }
  split.
  - intros r c Hr Hc. unfold legacyGrossProfit. rewrite Hr, Hc.
    rewrite (Htr r), (Htr c); [reflexivity| |];
      [exact (proj1 (legacy_chain_pos _ _ _ Hc))|exact (proj1 (legacy_chain_pos _ _ _ Hr))].
  - unfold legacyGrossProfit.
    destruct (legacyRevenues usgaap) as [r|] eqn:Hr,
             (legacyCostOfRevenues usgaap) as [c|] eqn:Hc; try tauto.
    rewrite (Htr r), (Htr c).
    + split; [discriminate|intros [?|?]; discriminate].
    + exact (proj1 (legacy_chain_pos _ _ _ Hc)).
    + exact (proj1 (legacy_chain_pos _ _ _ Hr)).
Qed.

(** ** Requests rejected before any fetch *)

Lemma missing_true (x : option string) : missing x = true <-> x = None \/ x = Some "".
Proof.
  destruct x as [s|]; simpl; [|tauto].
  rewrite bool_decide_eq_true. split; [intros ->; now right|intros [H|H]; congruence].
Qed.

(** The three routes answer a request that is not a GET with 405 ["Method
    not allowed"], and a GET whose required parameter is absent or empty
    (or, for the search, a query shorter than two characters) with 400 and
    the route's message, whatever the SEC would answer: such a request is
    never forwarded to the SEC. *)
Theorem invalid_requests_not_fetched :
  (forall tz method ticker cik fetch,
     method <> "GET" ->
     secDataHandler tz method ticker cik fetch = mkResponse 405 (Message "Method not allowed")) /\
  (forall tz ticker cik fetch,
     ticker = None \/ ticker = Some "" \/ cik = None \/ cik = Some "" ->
     secDataHandler tz "GET" ticker cik fetch
     = mkResponse 400 (Message "Ticker and CIK required")) /\
  (forall method cik fetch,
     method <> "GET" ->
     companyInfoHandler method cik fetch = mkResponse 405 (Message "Method not allowed")) /\
  (forall cik fetch,
     cik = None \/ cik = Some "" ->
     companyInfoHandler "GET" cik fetch = mkResponse 400 (Message "CIK required")) /\
  (forall sortResults method query fetch,
     method <> "GET" ->
     searchHandler sortResults method query fetch = mkResponse 405 (Message "Method not allowed")) /\
  (forall sortResults query fetch,
     query = None \/ (exists q, query = Some q /\ String.length q < 2)%nat ->
     searchHandler sortResults "GET" query fetch
     = mkResponse 400 (Message "Search query too short")).
Proof.
  repeat split.
  - intros tz method ticker cik fetch Hm. unfold secDataHandler.
    now rewrite bool_decide_eq_false_2 by exact Hm.
  - intros tz ticker cik fetch H. unfold secDataHandler.
    rewrite bool_decide_eq_true_2 by reflexivity.
    assert (Hm : missing ticker || missing cik = true).
    { rewrite orb_true_iff, !missing_true. tauto. }
    now rewrite Hm.
  - intros method cik fetch Hm. unfold companyInfoHandler.
    now rewrite bool_decide_eq_false_2 by exact Hm.
  - intros cik fetch H. unfold companyInfoHandler.
    rewrite bool_decide_eq_true_2 by reflexivity.
    assert (Hm : missing cik = true) by (rewrite missing_true; tauto).
    now rewrite Hm.
  - intros sortResults method query fetch Hm. unfold searchHandler.
    now rewrite bool_decide_eq_false_2 by exact Hm.
  - intros sortResults query fetch H. unfold searchHandler.
    rewrite bool_decide_eq_true_2 by reflexivity.
    assert (Hm : missing query || Nat.ltb (String.length (default "" query)) 2 = true).
    { destruct H as [->|(q & -> & Hq)]; [reflexivity|].
      apply orb_true_iff. right. now apply Nat.ltb_lt. }
    now rewrite Hm.
Qed.

